(** * cnn_scraper: link discovery, article extraction and the crawl

    A shallow embedding of [src/cnn_scraper.py].

    Conventions of the embedding.
    - A Python [str] is a [string] whose characters are code points below
      256.  On that range [str.isspace] holds for 9-13, 28-32, 133 and 160,
      and the regular expression class [\d] is [0-9].
    - A parsed document ([BeautifulSoup(html, "html.parser")]) is a forest of
      [node]s: text leaves and tags with their attributes, their list of
      classes and their children.  Strings that [get_text] skips (comments,
      doctypes) are left out of the tree.  The parser itself, which
      rejects some markup with [ParserRejectedMarkup], the HTTP session,
      [datetime.strptime] and the destination of the output belong to
      the [World] the program runs in.
    - Exceptions are explicit: a computation of type [res A] returns a value
      or raises one of the exceptions the program handles.
    - The order in which [as_completed] yields the futures is given by the
      instants at which the world completes the fetches.  The scheduling
      of the worker threads is the transition system [Pool].
    - [strftime] is the one of CPython on Linux, where [%Y] prints the
      year without padding.
    - Diagnostic prints and wall-clock timings are not modelled. *)

From Stdlib Require Import Bool Arith List ZArith Lia Ascii String Permutation.
Import ListNotations.

Local Open Scope string_scope.
Local Open Scope list_scope.

Local Set Warnings "-register-all".

(** ** Python string operations *)

Module PyStr.

(** [str.isspace] on one character. *)
Definition isspace (c : ascii) : bool :=
  let n := nat_of_ascii c in
  (((9 <=? n) && (n <=? 13)) || ((28 <=? n) && (n <=? 32))
  || (n =? 133) || (n =? 160))%nat.

(** [c.isdigit()] as the class [\d] sees it. *)
Definition isdigit (c : ascii) : bool :=
  let n := nat_of_ascii c in ((48 <=? n) && (n <=? 57))%nat.

(** Truth value of a string: [bool(s)]. *)
Definition truthy (s : string) : bool :=
  match s with EmptyString => false | String _ _ => true end.

Fixpoint lstrip (s : string) : string :=
  match s with
  | EmptyString => EmptyString
  | String c r => if isspace c then lstrip r else s
  end.

Fixpoint rstrip (s : string) : string :=
  match s with
  | EmptyString => EmptyString
  | String c r =>
      match rstrip r with
      | EmptyString => if isspace c then EmptyString else String c EmptyString
      | r' => String c r'
      end
  end.

(** [s.strip()] *)
Definition strip (s : string) : string := rstrip (lstrip s).

(** [s.startswith(p)] *)
Fixpoint startswith (p s : string) : bool :=
  match p, s with
  | EmptyString, _ => true
  | String a p', String b s' => Ascii.eqb a b && startswith p' s'
  | String _ _, EmptyString => false
  end.

(** [p in s] *)
Fixpoint contains (p s : string) : bool :=
  startswith p s
  || match s with
     | EmptyString => false
     | String _ r => contains p r
     end.

(** [s.replace(p, "")] for a non-empty [p]: scan left to right, and at
    each occurrence of [p] drop its characters and resume after it.
    [skip] counts the characters of the current occurrence still to
    drop. *)
Fixpoint remove_from (p : string) (skip : nat) (s : string) : string :=
  match s with
  | EmptyString => EmptyString
  | String c r =>
      match skip with
      | S k => remove_from p k r
      | O => if startswith p s
             then remove_from p (String.length p - 1) r
             else String c (remove_from p 0 r)
      end
  end.

Definition remove (p s : string) : string := remove_from p 0 s.

(** [sep.join(l)] *)
Fixpoint join (sep : string) (l : list string) : string :=
  match l with
  | [] => EmptyString
  | [x] => x
  | x :: r => (x ++ sep ++ join sep r)%string
  end.

(** The newline character. *)
Definition nl : string := String (ascii_of_nat 10) EmptyString.

(** The last character of a string, if any. *)
Fixpoint last_char (s : string) : option ascii :=
  match s with
  | EmptyString => None
  | String c EmptyString => Some c
  | String _ r => last_char r
  end.

Definition first_char (s : string) : option ascii :=
  match s with
  | EmptyString => None
  | String c _ => Some c
  end.

Definition blank (o : option ascii) : bool :=
  match o with
  | Some c => isspace c
  | None => false
  end.

End PyStr.

(** ** The regular expression [/\d{4}/\d{2}/\d{2}/] *)

Module Re.

Definition slash : ascii := "/"%char.

(** One element of the pattern: a slash or a digit. *)
Inductive atom := Slash | Digit.

Definition atom_ok (a : atom) (c : ascii) : bool :=
  match a with
  | Slash => Ascii.eqb c slash
  | Digit => PyStr.isdigit c
  end.

(** [article_pattern]: slash, four digits, slash, two digits, slash, two
    digits, slash. *)
Definition article_pattern : list atom :=
  [Slash; Digit; Digit; Digit; Digit; Slash; Digit; Digit; Slash;
   Digit; Digit; Slash].

(** [pattern.match(s)]: the pattern matches at the start of [s]. *)
Fixpoint match_here (p : list atom) (s : string) : bool :=
  match p, s with
  | [], _ => true
  | a :: p', String c s' => atom_ok a c && match_here p' s'
  | _ :: _, EmptyString => false
  end.

(** [pattern.search(s)] as a truth value: a match at some position. *)
Fixpoint search (p : list atom) (s : string) : bool :=
  match_here p s
  || match s with
     | EmptyString => false
     | String _ r => search p r
     end.

(** [m] is, character by character, what the pattern [p] asks for. *)
Definition shaped (p : list atom) (m : string) : Prop :=
  Forall2 (fun a c => atom_ok a c = true) p (list_ascii_of_string m).

(** A date path such as [/2024/03/15/]. *)
Definition date_path_string (m : string) : Prop :=
  shaped article_pattern m.

End Re.

(** ** Parsed documents *)

Module Soup.

Inductive node :=
| Text (s : string)
| Tag (name : string) (attrs : list (string * string))
      (classes : list string) (children : list node).

(** All nodes below [n], in document order. *)
Fixpoint descendants (n : node) : list node :=
  match n with
  | Text _ => []
  | Tag _ _ _ cs =>
      (fix go (l : list node) : list node :=
         match l with
         | [] => []
         | c :: r => c :: descendants c ++ go r
         end) cs
  end.

(** All nodes of a document. *)
Definition nodes (doc : list node) : list node :=
  flat_map (fun c => c :: descendants c) doc.

(** The strings below [n], in document order. *)
Fixpoint strings (n : node) : list string :=
  match n with
  | Text s => [s]
  | Tag _ _ _ cs =>
      (fix go (l : list node) : list string :=
         match l with
         | [] => []
         | c :: r => strings c ++ go r
         end) cs
  end.

(** [tag.text], that is [tag.get_text()]. *)
Definition text (n : node) : string :=
  String.concat "" (strings n).

(** [tag.get_text(strip=True)]: every string stripped, the empty ones
    dropped, the rest concatenated. *)
Definition get_text_strip (n : node) : string :=
  String.concat ""
    (filter PyStr.truthy (map PyStr.strip (strings n))).

(** [tag.get(key)] *)
Fixpoint get (key : string) (attrs : list (string * string))
  : option string :=
  match attrs with
  | [] => None
  | (k, v) :: r => if String.eqb k key then Some v else get key r
  end.

Definition is_tag (name : string) (n : node) : bool :=
  match n with
  | Tag nm _ _ _ => String.eqb nm name
  | Text _ => false
  end.

Definition has_attr (key : string) (n : node) : bool :=
  match n with
  | Tag _ attrs _ _ =>
      match get key attrs with Some _ => true | None => false end
  | Text _ => false
  end.

(** The [class_=v] filter: one of the classes is [v], or the whole
    attribute, its classes joined by a space, is [v]. *)
Definition has_class (v : string) (n : node) : bool :=
  match n with
  | Tag _ _ cls _ =>
      existsb (String.eqb v) cls || String.eqb v (PyStr.join " " cls)
  | Text _ => false
  end.

(** [soup.find_all(name)] with one more filter on the tag. *)
Definition find_all (name : string) (extra : node -> bool)
           (doc : list node) : list node :=
  filter (fun n => is_tag name n && extra n) (nodes doc).

(** [soup.find(...)]: the first result of [find_all], if any. *)
Definition find (name : string) (extra : node -> bool)
           (doc : list node) : option node :=
  hd_error (find_all name extra doc).

Definition any (_ : node) : bool := true.

End Soup.

(** ** Exceptions *)

Inductive exn :=
| RequestException
| ValueError
| TypeError
| ParserRejectedMarkup.

Inductive res (A : Type) :=
| Ret (a : A)
| Raise (e : exn).

Arguments Ret {A} a.
Arguments Raise {A} e.

Definition bind {A B : Type} (c : res A) (k : A -> res B) : res B :=
  match c with
  | Ret a => k a
  | Raise e => Raise e
  end.

Notation "x <- c ;; k" := (bind c (fun x => k))
  (at level 61, c at next level, right associativity).

Definition exn_eqb (a b : exn) : bool :=
  match a, b with
  | RequestException, RequestException => true
  | ValueError, ValueError => true
  | TypeError, TypeError => true
  | ParserRejectedMarkup, ParserRejectedMarkup => true
  | _, _ => false
  end.

(** [try: c except (caught...): h] *)
Definition try_except {A : Type} (c : res A) (caught : list exn)
           (h : res A) : res A :=
  match c with
  | Ret a => Ret a
  | Raise e => if existsb (exn_eqb e) caught then h else Raise e
  end.

(** ** Dates *)

Record datetime := {
  year : nat; month : nat; day : nat;
  hour : nat; minute : nat; second : nat }.

Module Fmt.

Definition digit (n : nat) : ascii := ascii_of_nat (48 + n mod 10).

(** The [w] low decimal digits of [n], zero-padded. *)
Fixpoint fixed (w n : nat) : string :=
  match w with
  | 0 => EmptyString
  | S w' => (fixed w' (n / 10) ++ String (digit n) EmptyString)%string
  end.

(** Number of decimal digits of [n], at least one; [fuel] bounds the
    recursion. *)
Fixpoint width (fuel n : nat) : nat :=
  match fuel with
  | 0 => 1
  | S f => if (n <? 10)%nat then 1 else S (width f (n / 10))
  end.

(** [n] in decimal, zero-padded to at least [w] digits. *)
Definition padded (w n : nat) : string :=
  fixed (Nat.max w (width n n)) n.

(** [dt.strftime("%Y-%m-%d %H:%M:%S")]: the year in decimal as it is,
    every other field on two digits. *)
Definition strftime (dt : datetime) : string :=
  (padded 1 (year dt) ++ "-" ++ padded 2 (month dt) ++ "-"
   ++ padded 2 (day dt) ++ " " ++ padded 2 (hour dt) ++ ":"
   ++ padded 2 (minute dt) ++ ":" ++ padded 2 (second dt))%string.

(** The layout [YYYY-MM-DD HH:MM:SS] as the specification words it: four
    digits for the year, two for every other field. *)
Definition iso (dt : datetime) : string :=
  (fixed 4 (year dt) ++ "-" ++ fixed 2 (month dt) ++ "-"
   ++ fixed 2 (day dt) ++ " " ++ fixed 2 (hour dt) ++ ":"
   ++ fixed 2 (minute dt) ++ ":" ++ fixed 2 (second dt))%string.

End Fmt.

(** ** Records of the scraper *)

Record ArticleRef := { ref_title : string; ref_url : string }.

Record Article := {
  title : string; date : string; content : string; url : string }.

(** What a run hands to its destination: the strings it prints on the
    console, one per call of [print], or the file it opens and the
    articles it dumps into it. *)
Inductive report :=
| Printed (lines : list string)
| Saved (file : string) (articles : list Article).

(** ** The world the scraper runs in *)

Record World := {
  (** [session.get(url, timeout=10)] followed by [raise_for_status()],
      under the session's User-Agent: the response text, or [None] when
      [requests.RequestException] is raised (connection error, timeout,
      non-success status). *)
  http_get : string -> string -> option string;
  (** [BeautifulSoup(markup, "html.parser")]: the parsed document, or
      [None] when the parser raises [ParserRejectedMarkup]. *)
  html_parser : string -> option (list Soup.node);
  (** [datetime.strptime(date_string, format)]; [None] is [ValueError]. *)
  strptime : string -> string -> option datetime;
  (** The instant at which the task fetching a URL completes. *)
  finished_at : string -> nat;
  (** Whether the output step goes through: the calls of [print], or
      [open(file, 'w')] and [json.dump].  When it does not, an exception
      leaves [main]. *)
  delivers : report -> bool }.

(** ** The scraper *)

Record CNNNewsScraper := {
  base_url : string; threads : Z; user_agent : string }.

Definition default_base_url : string := "https://www.cnn.com".

Definition default_user_agent : string :=
  "Mozilla/5.0 (Windows NT 10.0; Win64; x64) AppleWebKit/537.36 (KHTML, like Gecko) Chrome/94.0.4606.61 Safari/537.36".

(** [user_agent or default_user_agent] *)
Definition or_default (ua : option string) : string :=
  match ua with
  | Some s => if PyStr.truthy s then s else default_user_agent
  | None => default_user_agent
  end.

(** [CNNNewsScraper(base_url, threads, user_agent)] *)
Definition init (base : string) (n : Z) (ua : option string)
  : CNNNewsScraper :=
  {| base_url := base; threads := n; user_agent := or_default ua |}.

Definition no_date : string := "No Date Found".
Definition no_content : string := "No Content Found".
Definition date_format : string := "Updated %I:%M %p %Z, %a %B %d, %Y".

(** *** Requests *)

(** [self.session.get(url, timeout=10)] and [response.raise_for_status()],
    giving [response.text]. *)
Definition session_get (w : World) (self : CNNNewsScraper) (u : string)
  : res string :=
  match http_get w (user_agent self) u with
  | Some body => Ret body
  | None => Raise RequestException
  end.

(** [fetch_main_page]: the markup of the main page, or [None]. *)
Definition fetch_main_page (w : World) (self : CNNNewsScraper)
  : res (option string) :=
  try_except
    (body <- session_get w self (base_url self) ;; Ret (Some body))
    [RequestException]
    (Ret None).

(** *** Link discovery *)

(** A Python [dict] with string keys: insertion-ordered, and assigning to
    a key that is present replaces its value where it stands. *)
Module Dict.

Fixpoint set {A : Type} (k : string) (v : A) (d : list (string * A))
  : list (string * A) :=
  match d with
  | [] => [(k, v)]
  | (k', v') :: r =>
      if String.eqb k' k then (k', v) :: r else (k', v') :: set k v r
  end.

Fixpoint lookup {A : Type} (k : string) (d : list (string * A))
  : option A :=
  match d with
  | [] => None
  | (k', v') :: r => if String.eqb k' k then Some v' else lookup k r
  end.

Definition keys {A : Type} (d : list (string * A)) : list string :=
  map fst d.

Definition values {A : Type} (d : list (string * A)) : list A :=
  map snd d.

(** The comprehension continued from a dictionary [d]. *)
Definition extend {A : Type} (key : A -> string) (l : list A)
           (d : list (string * A)) : list (string * A) :=
  fold_left (fun d x => set (key x) x d) l d.

(** [{key(x): x for x in l}] *)
Definition comprehension {A : Type} (key : A -> string) (l : list A)
  : list (string * A) :=
  extend key l [].

(** The last element of [l] filed under [k]. *)
Definition last_keyed {A : Type} (key : A -> string) (k : string)
           (l : list A) : option A :=
  fold_left (fun acc x => if String.eqb (key x) k then Some x else acc)
            l None.

(** Every entry is filed under its own key. *)
Definition keyed {A : Type} (key : A -> string) (d : list (string * A))
  : Prop :=
  Forall (fun kv => fst kv = key (snd kv)) d.

End Dict.

(** [link.get("href")] *)
Definition link_href (link : Soup.node) : option string :=
  match link with
  | Soup.Tag _ attrs _ _ => Soup.get "href" attrs
  | Soup.Text _ => None
  end.

(** ["Video" in title or "Gallery" in title] *)
Definition media_label (t : string) : bool :=
  PyStr.contains "Video" t || PyStr.contains "Gallery" t.

(** [article_url and article_pattern.search(article_url)] *)
Definition date_path (u : option string) : bool :=
  match u with
  | Some s => PyStr.truthy s && Re.search Re.article_pattern s
  | None => false
  end.

(** A target starting with a slash gets the base URL in front. *)
Definition absolute (self : CNNNewsScraper) (u : string) : string :=
  if PyStr.startswith "/" u then (base_url self ++ u)%string else u.

(** One turn of the loop of [parse_main_page] over the anchors: the
    reference appended for [link], if any. *)
Definition candidate (self : CNNNewsScraper) (link : Soup.node)
  : option ArticleRef :=
  let article_url := link_href link in
  let t := Soup.get_text_strip link in
  if media_label t then None
  else if date_path article_url then
    match article_url with
    | Some u =>
        if PyStr.truthy t
        then Some {| ref_title := t; ref_url := absolute self u |}
        else None
    | None => None
    end
  else None.

(** [soup.find_all("a", href=True)] *)
Definition anchors (soup : list Soup.node) : list Soup.node :=
  Soup.find_all "a" (Soup.has_attr "href") soup.

(** The list [articles] after the loop. *)
Definition scan (self : CNNNewsScraper) (links : list Soup.node)
  : list ArticleRef :=
  fold_left
    (fun articles link =>
       match candidate self link with
       | Some a => articles ++ [a]
       | None => articles
       end)
    links [].

(** [list({article["url"]: article for article in articles}.values())] *)
Definition unique (articles : list ArticleRef) : list ArticleRef :=
  Dict.values (Dict.comprehension ref_url articles).

(** [parse_main_page] on the parsed markup. *)
Definition parse_soup (self : CNNNewsScraper) (soup : list Soup.node)
  : list ArticleRef :=
  unique (scan self (anchors soup)).

(** [BeautifulSoup(markup, "html.parser")] *)
Definition BeautifulSoup (w : World) (markup : string)
  : res (list Soup.node) :=
  match html_parser w markup with
  | Some soup => Ret soup
  | None => Raise ParserRejectedMarkup
  end.

Definition parse_main_page (w : World) (self : CNNNewsScraper)
           (html_content : string) : res (list ArticleRef) :=
  soup <- BeautifulSoup w html_content ;;
  Ret (parse_soup self soup).

(** *** Article extraction *)

(** [title_tag.text.strip() if title_tag else article_info["title"]] *)
Definition extract_title (article_info : ArticleRef)
           (soup : list Soup.node) : string :=
  match Soup.find "h1" Soup.any soup with
  | Some title_tag => PyStr.strip (Soup.text title_tag)
  | None => ref_title article_info
  end.

(** [date_tag.text.strip() if date_tag else None] *)
Definition date_text (soup : list Soup.node) : option string :=
  match Soup.find "div" (Soup.has_class "timestamp vossi-timestamp") soup with
  | Some date_tag => Some (PyStr.strip (Soup.text date_tag))
  | None => None
  end.

(** [datetime.strptime(s, fmt)], raising [ValueError] on a mismatch. *)
Definition strptime_exn (w : World) (s fmt : string) : res datetime :=
  match strptime w s fmt with
  | Some dt => Ret dt
  | None => Raise ValueError
  end.

(** The [try ... except (ValueError, TypeError)] around the date. *)
Definition extract_date (w : World) (soup : list Soup.node) : res string :=
  let date_str := date_text soup in
  try_except
    (match date_str with
     | Some s =>
         if PyStr.truthy s
         then dt <- strptime_exn w s date_format ;; Ret (Fmt.strftime dt)
         else Ret no_date
     | None => Ret no_date
     end)
    [ValueError; TypeError]
    (Ret no_date).

(** [find_all("div", class_="paragraph__content") or find_all("p")] *)
Definition paragraphs (soup : list Soup.node) : list Soup.node :=
  match Soup.find_all "div" (Soup.has_class "paragraph__content") soup with
  | [] => Soup.find_all "p" Soup.any soup
  | l => l
  end.

(** The joined paragraph texts, or the sentinel when there is no
    paragraph. *)
Definition assemble (ps : list Soup.node) : string :=
  match ps with
  | [] => no_content
  | _ => PyStr.join PyStr.nl (map Soup.get_text_strip ps)
  end.

(** [content.replace("Follow:", "").strip()] *)
Definition clean (c : string) : string :=
  PyStr.strip (PyStr.remove "Follow:" c).

Definition extract_content (soup : list Soup.node) : string :=
  clean (assemble (paragraphs soup)).

(** The body of [fetch_article] once the page is fetched. *)
Definition extract (w : World) (article_info : ArticleRef) (page : string)
  : res Article :=
  soup <- BeautifulSoup w page ;;
  let t := extract_title article_info soup in
  d <- extract_date w soup ;;
  let c := extract_content soup in
  Ret {| title := t; date := d; content := c;
         url := ref_url article_info |}.

(** [fetch_article]: the article, or [None] when the request fails. *)
Definition fetch_article (w : World) (self : CNNNewsScraper)
           (article_info : ArticleRef) : res (option Article) :=
  try_except
    (page <- session_get w self (ref_url article_info) ;;
     a <- extract w article_info page ;;
     Ret (Some a))
    [RequestException]
    (Ret None).

(** *** The crawl *)

(** [ThreadPoolExecutor(max_workers=n)]: the constructor refuses a
    non-positive number of workers. *)
Definition ThreadPoolExecutor (max_workers : Z) : res Z :=
  if (max_workers <=? 0)%Z then Raise ValueError else Ret max_workers.

(** A submitted task: the article it was submitted for, and what
    [future.result()] gives once the task is done. *)
Definition future : Type := (ArticleRef * res (option Article))%type.

(** [executor.submit(self.fetch_article, article)] for every article. *)
Definition submit_all (w : World) (self : CNNNewsScraper)
           (articles : list ArticleRef) : list future :=
  map (fun a => (a, fetch_article w self a)) articles.

(** [as_completed(fs)]: the futures in the order in which their tasks
    complete, by insertion of each future after those that complete no
    later. *)
Module Completion.

Definition instant (w : World) (f : future) : nat :=
  finished_at w (ref_url (fst f)).

Fixpoint insert (w : World) (f : future) (l : list future) : list future :=
  match l with
  | [] => [f]
  | g :: r =>
      if (instant w f <? instant w g)%nat
      then f :: g :: r
      else g :: insert w f r
  end.

Definition as_completed (w : World) (fs : list future) : list future :=
  fold_left (fun done f => insert w f done) fs [].

End Completion.

(** The loop over [as_completed]: [future.result()] re-raises what the
    task raised, and a result that is not [None] is appended. *)
Fixpoint gather (fs : list future) (results : list Article)
  : res (list Article) :=
  match fs with
  | [] => Ret results
  | (_, r) :: rest =>
      result <- r ;;
      gather rest
        (match result with
         | Some a => results ++ [a]
         | None => results
         end)
  end.

(** [get_main_page_articles] *)
Definition get_main_page_articles (w : World) (self : CNNNewsScraper)
  : res (list Article) :=
  html_content <- fetch_main_page w self ;;
  match html_content with
  | Some html =>
      if PyStr.truthy html then
        articles <- parse_main_page w self html ;;
        match articles with
        | _ :: _ =>
            _ <- ThreadPoolExecutor (threads self) ;;
            let future_to_article := submit_all w self articles in
            gather (Completion.as_completed w future_to_article) []
        | [] => Ret []
        end
      else Ret []
  | None => Ret []
  end.

(** *** The command line *)

Inductive preview := P300 | P500 | P1000 | PAll.
Inductive mode := Console | Json.

Record Args := {
  arg_threads : Z;
  arg_user_agent : option string;
  arg_content_preview : preview;
  arg_output : mode;
  arg_file : option string }.

(** [int(args.content_preview) if args.content_preview != 'all' else None] *)
Definition preview_length (p : preview) : option nat :=
  match p with
  | P300 => Some 300
  | P500 => Some 500
  | P1000 => Some 1000
  | PAll => None
  end.

(** The strings of the four calls of [print] for one article; the last
    one ends in a newline of its own. *)
Definition console_lines (n : option nat) (a : Article) : list string :=
  let c := match n with
           | Some (S k) => (substring 0 (S k) (content a) ++ "...")%string
           | _ => content a
           end in
  [("Title: " ++ title a)%string; ("Date: " ++ date a)%string;
   ("Content: " ++ c)%string; ("URL: " ++ url a ++ PyStr.nl)%string].

(** [args.file or 'cnn_articles.json'] *)
Definition output_file (f : option string) : string :=
  match f with
  | Some s => if PyStr.truthy s then s else "cnn_articles.json"
  | None => "cnn_articles.json"
  end.

(** The exit status of the process and the report its output step was
    given, if it came to that. *)
Record exit := { status : Z; handed : option report }.

(** [CNNNewsScraper(threads=args.threads, user_agent=args.user_agent)] *)
Definition scraper_of (args : Args) : CNNNewsScraper :=
  init default_base_url (arg_threads args) (arg_user_agent args).

(** The report of the output step of [main]. *)
Definition report_of (args : Args) (articles : list Article) : report :=
  match arg_output args with
  | Console =>
      Printed
        (flat_map
           (console_lines (preview_length (arg_content_preview args)))
           articles)
  | Json => Saved (output_file (arg_file args)) articles
  end.

(** [main]: the exit status of the process and what it set out to write.
    An exception that nothing catches, in the crawl or in the output
    step, ends the process with status 1, and so does [sys.exit(1)]. *)
Definition main (w : World) (args : Args) : exit :=
  let scraper := scraper_of args in
  match get_main_page_articles w scraper with
  | Raise _ => {| status := 1; handed := None |}
  | Ret [] => {| status := 1; handed := None |}
  | Ret articles =>
      let r := report_of args articles in
      {| status := if delivers w r then 0 else 1; handed := Some r |}
  end.

(** ** The worker pool

    [ThreadPoolExecutor] as a transition system.  [submit] puts a work
    item in the queue and, unless the idle semaphore can be taken, starts
    one more worker thread when fewer than [max_workers] exist.  A worker
    waits on the queue, takes one work item, runs it to the end, releases
    the idle semaphore and waits again. *)

Module Pool.

Inductive slot :=
| Idle
| Busy (a : ArticleRef).

Record state := {
  max_workers : Z;
  (** the articles the comprehension has yet to submit *)
  pending : list ArticleRef;
  (** the work items waiting in the queue *)
  queue : list ArticleRef;
  (** the worker threads started so far *)
  workers : list slot;
  idle_semaphore : nat;
  (** the tasks that have completed, oldest first *)
  completed : list ArticleRef }.

Inductive event :=
| Submit
| Take (i : nat)
| Finish (i : nat).

(** The pool of [get_main_page_articles] before the first [submit]. *)
Definition start (k : Z) (articles : list ArticleRef) : state :=
  {| max_workers := k; pending := articles; queue := []; workers := [];
     idle_semaphore := 0; completed := [] |}.

Fixpoint replace_nth (i : nat) (x : slot) (l : list slot) : list slot :=
  match l, i with
  | [], _ => []
  | _ :: r, O => x :: r
  | y :: r, S j => y :: replace_nth j x r
  end.

(** [_adjust_thread_count] *)
Definition adjust_thread_count (s : state) : list slot * nat :=
  match idle_semaphore s with
  | S n => (workers s, n)
  | O =>
      if (Z.of_nat (List.length (workers s)) <? max_workers s)%Z
      then (workers s ++ [Idle], 0)
      else (workers s, 0)
  end.

(** One step of the pool; [None] when the event cannot happen. *)
Definition step (e : event) (s : state) : option state :=
  match e with
  | Submit =>
      match pending s with
      | a :: rest =>
          let (ws, sem) := adjust_thread_count s in
          Some {| max_workers := max_workers s; pending := rest;
                  queue := queue s ++ [a]; workers := ws;
                  idle_semaphore := sem; completed := completed s |}
      | [] => None
      end
  | Take i =>
      match nth_error (workers s) i, queue s with
      | Some Idle, a :: rest =>
          Some {| max_workers := max_workers s; pending := pending s;
                  queue := rest; workers := replace_nth i (Busy a) (workers s);
                  idle_semaphore := idle_semaphore s;
                  completed := completed s |}
      | _, _ => None
      end
  | Finish i =>
      match nth_error (workers s) i with
      | Some (Busy a) =>
          Some {| max_workers := max_workers s; pending := pending s;
                  queue := queue s; workers := replace_nth i Idle (workers s);
                  idle_semaphore := S (idle_semaphore s);
                  completed := completed s ++ [a] |}
      | _ => None
      end
  end.

(** A run of the pool along a schedule. *)
Fixpoint run (es : list event) (s : state) : option state :=
  match es with
  | [] => Some s
  | e :: rest =>
      match step e s with
      | Some s' => run rest s'
      | None => None
      end
  end.

Definition busy (x : slot) : bool :=
  match x with Busy _ => true | Idle => false end.

(** The tasks being run at this moment. *)
Definition in_flight (s : state) : nat :=
  List.length (filter busy (workers s)).

(** Nothing left to submit, to take or to finish. *)
Definition quiet (s : state) : bool :=
  match pending s, queue s with
  | [], [] => Nat.eqb (in_flight s) 0
  | _, _ => false
  end.

(** The tasks the worker threads are running. *)
Definition running (ws : list slot) : list ArticleRef :=
  flat_map (fun x => match x with Busy a => [a] | Idle => [] end) ws.

(** Every task the pool knows of: to submit, queued, running or done. *)
Definition tasks (s : state) : list ArticleRef :=
  pending s ++ queue s ++ running (workers s) ++ completed s.

(** No more worker threads than [max_workers]. *)
Definition bounded (s : state) : Prop :=
  (Z.of_nat (List.length (workers s)) <= max_workers s)%Z.

(** The schedule that runs the tasks one after the other. *)
Definition one_by_one (articles : list ArticleRef) : list event :=
  flat_map (fun _ => [Submit; Take 0; Finish 0]) articles.

End Pool.

(** ** Vocabulary of the statements *)

Fixpoint omap {A B : Type} (f : A -> option B) (l : list A) : list B :=
  match l with
  | [] => []
  | x :: r =>
      match f x with
      | Some y => y :: omap f r
      | None => omap f r
      end
  end.

Fixpoint last_opt {A : Type} (l : list A) : option A :=
  match l with
  | [] => None
  | [x] => Some x
  | _ :: r => last_opt r
  end.

(** The target of an anchor once normalized. *)
Definition target (self : CNNNewsScraper) (link : Soup.node)
  : option string :=
  option_map (absolute self) (link_href link).

(** The anchor passes the media-label filter and the date-path filter and
    has visible text. *)
Definition passes (link : Soup.node) : bool :=
  negb (media_label (Soup.get_text_strip link))
  && date_path (link_href link)
  && PyStr.truthy (Soup.get_text_strip link).

(** The anchors whose normalized target is [u], in traversal order. *)
Definition sharing (self : CNNNewsScraper) (u : string)
           (links : list Soup.node) : list Soup.node :=
  filter (fun link =>
            match target self link with
            | Some t => String.eqb t u
            | None => false
            end) links.

(** The references of a result that carry the URL [u]. *)
Definition with_url (u : string) (refs : list ArticleRef)
  : list ArticleRef :=
  filter (fun r => String.eqb (ref_url r) u) refs.

(** The Article a link yields: the one extracted from its page when the
    fetch succeeds, none when it fails. *)
Definition produced (w : World) (self : CNNNewsScraper) (a : ArticleRef)
  : option Article :=
  match http_get w (user_agent self) (ref_url a) with
  | Some page =>
      match extract w a page with
      | Ret x => Some x
      | Raise _ => None
      end
  | None => None
  end.

(** What the loop over the completed futures keeps of one future. *)
Definition kept (f : future) : option Article :=
  match snd f with
  | Ret o => o
  | Raise _ => None
  end.

(** The elements of the primary selector and of the fallback selector. *)
Definition primary (soup : list Soup.node) : list Soup.node :=
  Soup.find_all "div" (Soup.has_class "paragraph__content") soup.

Definition generic (soup : list Soup.node) : list Soup.node :=
  Soup.find_all "p" Soup.any soup.

(** The texts of [ps] joined by newlines. *)
Definition joined (ps : list Soup.node) : string :=
  PyStr.join PyStr.nl (map Soup.get_text_strip ps).

(** The joined texts with "Follow:" removed, trimmed. *)
Definition cleaned (ps : list Soup.node) : string :=
  PyStr.strip (PyStr.remove "Follow:" (joined ps)).

(** ** A small site to run the scraper on *)

Module Demo.

Definition foo_path : string := "/2024/03/15/foo-bar/index.html".
Definition foo_url : string := (default_base_url ++ foo_path)%string.
Definition gone_url : string :=
  (default_base_url ++ "/2024/03/17/gone/index.html")%string.

Definition landing_html : string :=
  "<html><body><a href='/2024/03/15/foo-bar/index.html'>Foo Bar Story</a><a href='https://www.cnn.com/2024/03/15/foo-bar/index.html'> Foo Bar, again </a><a href='/2024/03/16/clip/index.html'>Video: the clip</a><a href='/2024/03/17/gone/index.html'>Gone</a><a href='/about'>About</a></body></html>".

Definition a_first : Soup.node :=
  Soup.Tag "a" [("href", foo_path)] [] [Soup.Text "Foo Bar Story"].
Definition a_again : Soup.node :=
  Soup.Tag "a" [("href", foo_url)] [] [Soup.Text " Foo Bar, again "].
Definition a_clip : Soup.node :=
  Soup.Tag "a" [("href", "/2024/03/16/clip/index.html")] []
           [Soup.Text "Video: the clip"].
Definition a_gone : Soup.node :=
  Soup.Tag "a" [("href", "/2024/03/17/gone/index.html")] []
           [Soup.Text "Gone"].
Definition a_about : Soup.node :=
  Soup.Tag "a" [("href", "/about")] [] [Soup.Text "About"].

Definition landing_soup : list Soup.node :=
  [Soup.Tag "html" [] []
     [Soup.Tag "body" [] []
        [a_first; a_again; a_clip; a_gone; a_about]]].

Definition foo_html : string :=
  "<html><body><h1>Foo Bar</h1><div class='timestamp vossi-timestamp'>  Updated 9:05 AM EDT, Fri March 15, 2024 </div><div class='paragraph__content'>First paragraph. </div><div class='paragraph__content'>Follow: Second.</div></body></html>".

Definition stamp : string := "Updated 9:05 AM EDT, Fri March 15, 2024".

Definition foo_soup : list Soup.node :=
  [Soup.Tag "html" [] []
     [Soup.Tag "body" [] []
        [Soup.Tag "h1" [] [] [Soup.Text "Foo Bar"];
         Soup.Tag "div" [] ["timestamp"; "vossi-timestamp"]
                  [Soup.Text ("  " ++ stamp ++ " ")];
         Soup.Tag "div" [] ["paragraph__content"]
                  [Soup.Text "First paragraph. "];
         Soup.Tag "div" [] ["paragraph__content"]
                  [Soup.Text "Follow: Second."]]]].

(** The site: the main page and one article answer, every other request
    fails. *)
Definition site : World :=
  {| http_get := fun _ u =>
       if String.eqb u default_base_url then Some landing_html
       else if String.eqb u foo_url then Some foo_html
       else None;
     html_parser := fun html =>
       if String.eqb html landing_html then Some landing_soup
       else if String.eqb html foo_html then Some foo_soup
       else Some [];
     strptime := fun s fmt =>
       if String.eqb s stamp && String.eqb fmt date_format
       then Some {| year := 2024; month := 3; day := 15;
                    hour := 9; minute := 5; second := 0 |}
       else None;
     finished_at := fun _ => 0;
     delivers := fun _ => true |}.

(** A file in a directory that does not exist. *)
Definition nowhere : string := "/no/such/dir/out.json".

(** The same site where that file cannot be opened. *)
Definition readonly : World :=
  {| http_get := http_get site;
     html_parser := html_parser site;
     strptime := strptime site;
     finished_at := finished_at site;
     delivers := fun r =>
       match r with
       | Printed _ => true
       | Saved f _ => negb (String.eqb f nowhere)
       end |}.

Definition json_args : Args :=
  {| arg_threads := 10; arg_user_agent := None;
     arg_content_preview := P300; arg_output := Json;
     arg_file := Some nowhere |}.

(** An article page stamped with the year 0099. *)
Definition old_stamp : string := "Updated 10:00 AM UTC, Mon March 15, 0099".

Definition old_html : string :=
  "<h1>Old News</h1><div class='timestamp vossi-timestamp'>Updated 10:00 AM UTC, Mon March 15, 0099</div><p>Long ago.</p>".

Definition old_soup : list Soup.node :=
  [Soup.Tag "h1" [] [] [Soup.Text "Old News"];
   Soup.Tag "div" [] ["timestamp"; "vossi-timestamp"] [Soup.Text old_stamp];
   Soup.Tag "p" [] [] [Soup.Text "Long ago."]].

Definition old_article : Article :=
  {| title := "Old News"; date := "99-03-15 10:00:00";
     content := "Long ago."; url := foo_url |}.

(** The site with that article page. *)
Definition ancient : World :=
  {| http_get := fun _ u =>
       if String.eqb u default_base_url then Some landing_html
       else if String.eqb u foo_url then Some old_html
       else None;
     html_parser := fun html =>
       if String.eqb html old_html then Some old_soup
       else html_parser site html;
     strptime := fun s fmt =>
       if String.eqb s old_stamp && String.eqb fmt date_format
       then Some {| year := 99; month := 3; day := 15;
                    hour := 10; minute := 0; second := 0 |}
       else None;
     finished_at := finished_at site;
     delivers := delivers site |}.

(** Markup that the parser rejects. *)
Definition bad_html : string := "<![foo[x]]>".

(** The site with that markup as its article page. *)
Definition picky : World :=
  {| http_get := fun _ u =>
       if String.eqb u default_base_url then Some landing_html
       else if String.eqb u foo_url then Some bad_html
       else None;
     html_parser := fun html =>
       if String.eqb html bad_html then None else html_parser site html;
     strptime := strptime site;
     finished_at := finished_at site;
     delivers := delivers site |}.

(** A site whose main page answers with an empty body, while its parser
    would find the links of [landing_soup] in any markup. *)
Definition hollow : World :=
  {| http_get := fun _ _ => Some "";
     html_parser := fun _ => Some landing_soup;
     strptime := fun _ _ => None;
     finished_at := fun _ => 0;
     delivers := fun _ => true |}.

(** A site that is down. *)
Definition down : World :=
  {| http_get := fun _ _ => None;
     html_parser := fun _ => Some landing_soup;
     strptime := fun _ _ => None;
     finished_at := fun _ => 0;
     delivers := fun _ => true |}.

Definition scraper : CNNNewsScraper := init default_base_url 10 None.

Definition args : Args :=
  {| arg_threads := 10; arg_user_agent := None;
     arg_content_preview := P300; arg_output := Console;
     arg_file := None |}.

Definition foo_ref : ArticleRef :=
  {| ref_title := "Foo Bar, again"; ref_url := foo_url |}.
Definition gone_ref : ArticleRef :=
  {| ref_title := "Gone"; ref_url := gone_url |}.

Definition foo_article : Article :=
  {| title := "Foo Bar"; date := "2024-03-15 09:05:00";
     content := ("First paragraph." ++ PyStr.nl ++ " Second.")%string;
     url := foo_url |}.

(** A scraper with two workers, three links, and a schedule that submits
    them all before two workers take one each. *)
Definition pair : CNNNewsScraper := init default_base_url 2 None.

Definition three : list ArticleRef := [foo_ref; gone_ref; foo_ref].

Definition rush : list Pool.event :=
  [Pool.Submit; Pool.Submit; Pool.Submit; Pool.Take 0; Pool.Take 1].

Definition crowded : Pool.state :=
  {| Pool.max_workers := 2; Pool.pending := []; Pool.queue := [foo_ref];
     Pool.workers := [Pool.Busy foo_ref; Pool.Busy gone_ref];
     Pool.idle_semaphore := 0; Pool.completed := [] |}.

(** A page whose only paragraph is empty: [<p></p>]. *)
Definition empty_paragraph : list Soup.node := [Soup.Tag "p" [] [] []].

(** A site where every page is [<p></p>]. *)
Definition bare : World :=
  {| http_get := fun _ _ => Some "<p></p>";
     html_parser := fun _ => Some empty_paragraph;
     strptime := fun _ _ => None;
     finished_at := fun _ => 0;
     delivers := fun _ => true |}.

End Demo.

(** ** Vocabulary of further statements *)

(** The strings of [l], each at its first appearance. *)
Fixpoint firsts (l : list string) : list string :=
  match l with
  | [] => []
  | x :: r => x :: filter (fun y => negb (String.eqb y x)) (firsts r)
  end.

(** [y] is none of the strings of [ks]. *)
Definition absent (ks : list string) (y : string) : bool :=
  negb (existsb (String.eqb y) ks).

(** The reference appended for an anchor whose normalized target is [u]. *)
Definition ref_of (link : Soup.node) (u : string) : ArticleRef :=
  {| ref_title := Soup.get_text_strip link; ref_url := u |}.

(** The anchors with normalized target [u] that pass the filters, in
    traversal order. *)
Definition keeping (self : CNNNewsScraper) (u : string)
           (links : list Soup.node) : list Soup.node :=
  filter passes (sharing self u links).

(** The string is made of white space only. *)
Fixpoint all_space (s : string) : bool :=
  match s with
  | EmptyString => true
  | String c r => PyStr.isspace c && all_space r
  end.

(** The request for the page of a link succeeds. *)
Definition fetched (w : World) (self : CNNNewsScraper) (a : ArticleRef)
  : bool :=
  match http_get w (user_agent self) (ref_url a) with
  | Some _ => true
  | None => false
  end.

(** A date whose fields other than the year have at most two digits. *)
Definition fits (dt : datetime) : Prop :=
  month dt < 10 ^ 2 /\ day dt < 10 ^ 2
  /\ hour dt < 10 ^ 2 /\ minute dt < 10 ^ 2 /\ second dt < 10 ^ 2.

(** The date a page is stamped with: the timestamp text that is there,
    not empty, and parses. *)
Definition stamped (w : World) (soup : list Soup.node)
  : option datetime :=
  match date_text soup with
  | Some s => if PyStr.truthy s then strptime w s date_format else None
  | None => None
  end.

(** The date field of an article extracted from a parsed page. *)
Definition date_of (w : World) (soup : list Soup.node) : string :=
  match stamped w soup with
  | Some dt => Fmt.strftime dt
  | None => no_date
  end.

(** The article extracted from a parsed page. *)
Definition article_of (w : World) (a : ArticleRef)
           (soup : list Soup.node) : Article :=
  {| title := extract_title a soup; date := date_of w soup;
     content := extract_content soup; url := ref_url a |}.

(** The link whose page is fetched raises in the worker: the parser
    rejects the markup of the page. *)
Definition rejected (w : World) (self : CNNNewsScraper) (a : ArticleRef)
  : bool :=
  match http_get w (user_agent self) (ref_url a) with
  | Some page =>
      match html_parser w page with
      | Some _ => false
      | None => true
      end
  | None => false
  end.

(** The content line printed for an article. *)
Definition content_line (n : option nat) (a : Article) : string :=
  nth 2 (console_lines n a) "".

(** The pool of the small site once the three tasks have run one by
    one. *)
Definition settled : Pool.state :=
  {| Pool.max_workers := 2; Pool.pending := []; Pool.queue := [];
     Pool.workers := [Pool.Idle]; Pool.idle_semaphore := 1;
     Pool.completed := Demo.three |}.

(** A page whose heading holds white space only. *)
Definition blank_heading : list Soup.node :=
  [Soup.Tag "h1" [] [] [Soup.Text "  "; Soup.Tag "b" [] [] [Soup.Text " "]];
   Soup.Tag "p" [] [] [Soup.Text "Body."]].

(** A site where every page is [blank_heading]. *)
Definition untitled : World :=
  {| http_get := fun _ _ => Some "<h1>  <b> </b></h1><p>Body.</p>";
     html_parser := fun _ => Some blank_heading;
     strptime := fun _ _ => None;
     finished_at := fun _ => 0;
     delivers := fun _ => true |}.

(** * Properties *)

(** ** Strings *)

Module PyStrFacts.
Import PyStr.

Lemma app_assoc (a b c : string) : ((a ++ b) ++ c = a ++ (b ++ c))%string.
Proof. induction a as [|x a IH]; simpl; [reflexivity | now rewrite IH]. Qed.

Lemma app_empty_r (a : string) : (a ++ "" = a)%string.
Proof. induction a as [|x a IH]; simpl; [reflexivity | now rewrite IH]. Qed.

Lemma truthy_false (s : string) : truthy s = false <-> s = "".
Proof. destruct s; simpl; split; congruence. Qed.

Lemma truthy_true (s : string) : truthy s = true <-> s <> "".
Proof. destruct s; simpl; split; congruence. Qed.

Lemma startswith_app (p s : string) : startswith p (p ++ s) = true.
Proof.
  induction p as [|c p IH]; simpl; [reflexivity|].
  now rewrite Ascii.eqb_refl, IH.
Qed.

Lemma startswith_split (p s : string) :
  startswith p s = true -> exists r, s = (p ++ r)%string.
Proof.
  revert s; induction p as [|c p IH]; intros s H.
  - now exists s.
  - destruct s as [|d s]; simpl in H; [discriminate|].
    apply andb_true_iff in H as [Hc Hp].
    apply Ascii.eqb_eq in Hc; subst d.
    destruct (IH _ Hp) as [r ->]. now exists r.
Qed.

Lemma contains_start (p s : string) :
  startswith p s = true -> contains p s = true.
Proof. destruct s; simpl; intros ->; reflexivity. Qed.

(** [p in s] holds exactly when [s] has [p] as a substring. *)
Lemma contains_iff (p s : string) :
  contains p s = true <-> exists a b, s = (a ++ p ++ b)%string.
Proof.
  split.
  - induction s as [|c s IH]; simpl; intros H.
    + apply orb_true_iff in H as [H|H]; [|discriminate].
      destruct (startswith_split _ _ H) as [r Hr]. now exists "", r.
    + apply orb_true_iff in H as [H|H].
      * destruct (startswith_split _ _ H) as [r Hr]. now exists "", r.
      * destruct (IH H) as (a & b & ->). now exists (String c a), b.
  - intros (a & b & ->). induction a as [|c a IH]; simpl.
    + apply contains_start, startswith_app.
    + rewrite IH. apply orb_true_r.
Qed.

Lemma rstrip_fixed (s : string) : rstrip (rstrip s) = rstrip s.
Proof.
  induction s as [|c s IH]; simpl; [reflexivity|].
  destruct (rstrip s) as [|d r] eqn:E.
  - destruct (isspace c) eqn:Ec; simpl; [reflexivity | now rewrite Ec].
  - simpl in *. now rewrite IH.
Qed.

Lemma lstrip_first (s : string) : blank (first_char (lstrip s)) = false.
Proof.
  induction s as [|c s IH]; simpl; [reflexivity|].
  destruct (isspace c) eqn:E; [exact IH | simpl; exact E].
Qed.

Lemma rstrip_last (s : string) : blank (last_char (rstrip s)) = false.
Proof.
  induction s as [|c s IH]; simpl; [reflexivity|].
  destruct (rstrip s) as [|d r] eqn:E.
  - destruct (isspace c) eqn:Ec; simpl; [reflexivity | exact Ec].
  - exact IH.
Qed.

Lemma rstrip_first (s : string) :
  blank (first_char s) = false -> blank (first_char (rstrip s)) = false.
Proof.
  destruct s as [|c s]; simpl; [reflexivity|]. intros H.
  destruct (rstrip s); [rewrite H|]; simpl; exact H.
Qed.

(** [strip] leaves no white space at either end. *)
Lemma strip_trimmed (s : string) :
  blank (first_char (strip s)) = false
  /\ blank (last_char (strip s)) = false.
Proof.
  unfold strip; split.
  - apply rstrip_first, lstrip_first.
  - apply rstrip_last.
Qed.

(** Where the pattern does not occur, [replace] changes nothing. *)
Lemma remove_absent (p s : string) :
  contains p s = false -> remove p s = s.
Proof.
  unfold remove. induction s as [|c s IH]; simpl; [reflexivity|].
  intros H. apply orb_false_iff in H as [H1 H2].
  rewrite H1. now rewrite IH.
Qed.

Lemma remove_from_skip (p : string) (a s : string) :
  remove_from p (String.length a) (a ++ s) = remove_from p 0 s.
Proof. induction a as [|c a IH]; simpl; [reflexivity | exact IH]. Qed.

(** An occurrence at the front is dropped and the scan resumes behind
    it. *)
Lemma remove_hit (c : ascii) (p s : string) :
  remove (String c p) (String c p ++ s) = remove (String c p) s.
Proof.
  unfold remove. cbn [append remove_from].
  change (String c (p ++ s)) with (String c p ++ s)%string.
  rewrite startswith_app.
  replace (String.length (String c p) - 1) with (String.length p)
    by (simpl; lia).
  apply remove_from_skip.
Qed.

(** A character that starts no occurrence is kept. *)
Lemma remove_keep (p : string) (c : ascii) (s : string) :
  startswith p (String c s) = false ->
  remove p (String c s) = String c (remove p s).
Proof. unfold remove; simpl; intros ->. reflexivity. Qed.

End PyStrFacts.

(** ** The date-path pattern *)

Module ReFacts.
Import Re.

Lemma match_here_iff (p : list atom) (s : string) :
  match_here p s = true
  <-> exists m r, s = (m ++ r)%string /\ shaped p m.
Proof.
  revert s; induction p as [|a p IH]; intros s; split.
  - intros _. exists "", s. split; [reflexivity | constructor].
  - reflexivity.
  - destruct s as [|c s]; simpl; [discriminate|]. intros H.
    apply andb_true_iff in H as [Ha Hp].
    apply IH in Hp as (m & r & -> & Hm).
    exists (String c m), r. split; [reflexivity|].
    constructor; assumption.
  - intros (m & r & -> & Hm). unfold shaped in Hm.
    destruct m as [|c m]; simpl in Hm; inversion Hm; subst.
    simpl. apply andb_true_iff. split; [assumption|].
    apply IH. now exists m, r.
Qed.

(** [search] succeeds exactly on the strings with a substring of the
    pattern's shape. *)
Lemma search_iff (p : list atom) (s : string) :
  search p s = true
  <-> exists a m b, s = (a ++ m ++ b)%string /\ shaped p m.
Proof.
  split.
  - induction s as [|c s IH]; simpl; intros H;
      apply orb_true_iff in H as [H|H]; try discriminate.
    + apply match_here_iff in H as (m & r & E & Hm). now exists "", m, r.
    + apply match_here_iff in H as (m & r & E & Hm). now exists "", m, r.
    + destruct (IH H) as (a & m & b & -> & Hm).
      now exists (String c a), m, b.
  - intros (a & m & b & -> & Hm). induction a as [|c a IH]; simpl.
    + assert (M : match_here p (m ++ b) = true)
        by (apply match_here_iff; now exists m, b).
      destruct (m ++ b)%string; simpl; now rewrite M.
    + rewrite IH. apply orb_true_r.
Qed.

(** A match survives any prefix put in front of the string. *)
Lemma search_app (p : list atom) (a s : string) :
  search p s = true -> search p (a ++ s) = true.
Proof.
  intros H. induction a as [|c a IH]; simpl; [exact H|].
  rewrite IH. apply orb_true_r.
Qed.

End ReFacts.

(** ** Dictionaries *)

Module DictFacts.
Import Dict.

Section Keyed.
Context {A : Type} (key : A -> string).

Lemma lookup_set_same (k : string) (v : A) (d : list (string * A)) :
  lookup k (set k v d) = Some v.
Proof.
  induction d as [|[k' v'] d IH]; simpl.
  - now rewrite String.eqb_refl.
  - destruct (String.eqb k' k) eqn:E; simpl; rewrite E; [reflexivity|].
    exact IH.
Qed.

Lemma lookup_set_other (k k' : string) (v : A) (d : list (string * A)) :
  k' <> k -> lookup k (set k' v d) = lookup k d.
Proof.
  intros N. induction d as [|[k0 v0] d IH]; simpl.
  - apply String.eqb_neq in N. now rewrite N.
  - destruct (String.eqb k0 k') eqn:E; simpl.
    + apply String.eqb_eq in E; subst k0.
      apply String.eqb_neq in N. now rewrite N.
    + destruct (String.eqb k0 k); [reflexivity | exact IH].
Qed.

Lemma keys_set (k : string) (v : A) (d : list (string * A)) :
  keys (set k v d)
  = if existsb (String.eqb k) (keys d) then keys d else keys d ++ [k].
Proof.
  unfold keys. induction d as [|[k' v'] d IH]; simpl; [reflexivity|].
  rewrite (String.eqb_sym k k').
  destruct (String.eqb k' k) eqn:E; simpl; [reflexivity|].
  rewrite IH. now destruct (existsb _ _).
Qed.

Lemma NoDup_keys_set (k : string) (v : A) (d : list (string * A)) :
  NoDup (keys d) -> NoDup (keys (set k v d)).
Proof.
  intros H. rewrite keys_set.
  destruct (existsb (String.eqb k) (keys d)) eqn:E; [exact H|].
  apply NoDup_app; [exact H | repeat constructor; intros [] |].
  intros x Hx [<-|[]].
  assert (existsb (String.eqb k) (keys d) = true); [|congruence].
  apply existsb_exists. exists k. split; [exact Hx|].
  apply String.eqb_refl.
Qed.

Lemma keyed_set (x : A) (d : list (string * A)) :
  keyed key d -> keyed key (set (key x) x d).
Proof.
  unfold keyed. induction d as [|[k' v'] d IH]; simpl; intros H.
  - repeat constructor.
  - inversion H as [|? ? Hk Hd]; subst.
    destruct (String.eqb k' (key x)) eqn:E.
    + apply String.eqb_eq in E. constructor; [exact E | exact Hd].
    + constructor; [exact Hk | exact (IH Hd)].
Qed.

Lemma In_set (x : A) (kv : string * A) (d : list (string * A)) :
  In kv (set (key x) x d) -> snd kv = x \/ In kv d.
Proof.
  induction d as [|[k' v'] d IH]; simpl.
  - intros [<-|[]]. now left.
  - destruct (String.eqb k' (key x)); simpl.
    + intros [<-|H]; [now left | now right; right].
    + intros [<-|H]; [now right; left|].
      destruct (IH H); [now left | now right; right].
Qed.

Lemma extend_inv (l : list A) (d : list (string * A)) :
  NoDup (keys d) -> keyed key d ->
  NoDup (keys (extend key l d)) /\ keyed key (extend key l d).
Proof.
  revert d; induction l as [|x l IH]; intros d Hn Hk; simpl.
  - now split.
  - apply IH; [now apply NoDup_keys_set | now apply keyed_set].
Qed.

Lemma extend_In (l : list A) (d : list (string * A)) (kv : string * A) :
  In kv (extend key l d) -> In (snd kv) l \/ In kv d.
Proof.
  revert d; induction l as [|x l IH]; intros d; simpl; [now right|].
  intros H. destruct (IH _ H) as [H1|H1]; [now left; right|].
  destruct (In_set _ _ _ H1) as [E|H2]; [now left; left | now right].
Qed.

Lemma last_keyed_from (k : string) (l : list A) (o : option A) :
  fold_left (fun acc x => if String.eqb (key x) k then Some x else acc)
            l o
  = match last_keyed key k l with
    | Some x => Some x
    | None => o
    end.
Proof.
  unfold last_keyed. revert o; induction l as [|x l IH]; intros o; simpl.
  - reflexivity.
  - rewrite IH. rewrite (IH (if String.eqb (key x) k then _ else _)).
    destruct (fold_left _ l None); [reflexivity|].
    now destruct (String.eqb (key x) k).
Qed.

Lemma lookup_extend (k : string) (l : list A) (d : list (string * A)) :
  lookup k (extend key l d)
  = match last_keyed key k l with
    | Some x => Some x
    | None => lookup k d
    end.
Proof.
  revert d; induction l as [|x l IH]; intros d; simpl; [reflexivity|].
  rewrite IH. unfold last_keyed at 2. simpl. rewrite last_keyed_from.
  destruct (last_keyed key k l); [reflexivity|].
  destruct (String.eqb (key x) k) eqn:E.
  - apply String.eqb_eq in E; subst k. apply lookup_set_same.
  - apply String.eqb_neq in E. now apply lookup_set_other.
Qed.

(** In a dictionary whose entries are filed under their own keys,
    the values with key [k] are the one [lookup] finds, if any. *)
Lemma values_keyed (k : string) (d : list (string * A)) :
  NoDup (keys d) -> keyed key d ->
  filter (fun x => String.eqb (key x) k) (values d)
  = match lookup k d with
    | Some x => [x]
    | None => []
    end.
Proof.
  unfold keys, values, keyed.
  induction d as [|[k' v'] d IH]; simpl; intros Hn Hk; [reflexivity|].
  inversion Hn as [|? ? Hnot Hn']; subst.
  inversion Hk as [|? ? Hk1 Hk']; subst. simpl in Hk1; subst k'.
  destruct (String.eqb (key v') k) eqn:E.
  - f_equal. apply String.eqb_eq in E; subst k.
    rewrite (IH Hn' Hk').
    destruct (lookup (key v') d) eqn:L; [|reflexivity].
    exfalso. apply Hnot. clear - L.
    induction d as [|[k0 v0] d IH]; simpl in *; [discriminate|].
    destruct (String.eqb k0 (key v')) eqn:E0.
    + apply String.eqb_eq in E0. now left.
    + right. exact (IH L).
  - exact (IH Hn' Hk').
Qed.

End Keyed.

End DictFacts.

(** ** Lists *)

Lemma In_omap {A B : Type} (f : A -> option B) (l : list A) (y : B) :
  In y (omap f l) <-> exists x, In x l /\ f x = Some y.
Proof.
  induction l as [|x l IH]; simpl.
  - split; [intros [] | intros (x & [] & _)].
  - destruct (f x) as [z|] eqn:E; simpl; rewrite IH; split.
    + intros [<-|(x' & Hx & Hf)]; [exists x | exists x']; auto.
    + intros (x' & [<-|Hx] & Hf); [left; congruence | right; eauto].
    + intros (x' & Hx & Hf). eauto.
    + intros (x' & [<-|Hx] & Hf); [congruence | eauto].
Qed.

Lemma omap_app {A B : Type} (f : A -> option B) (l1 l2 : list A) :
  omap f (l1 ++ l2) = omap f l1 ++ omap f l2.
Proof.
  induction l1 as [|x l1 IH]; simpl; [reflexivity|].
  destruct (f x); simpl; now rewrite IH.
Qed.

Lemma omap_perm {A B : Type} (f : A -> option B) (l1 l2 : list A) :
  Permutation l1 l2 -> Permutation (omap f l1) (omap f l2).
Proof.
  induction 1 as [|x l1 l2 _ IH|x y l|l1 l2 l3 _ IH1 _ IH2]; simpl.
  - constructor.
  - destruct (f x); [now constructor | exact IH].
  - destruct (f x), (f y); try apply Permutation_refl. constructor.
  - now transitivity (omap f l2).
Qed.

Lemma last_opt_cons {A : Type} (x : A) (l : list A) :
  last_opt (x :: l)
  = match last_opt l with
    | Some y => Some y
    | None => Some x
    end.
Proof.
  destruct l as [|y l]; [reflexivity|].
  change (last_opt (x :: y :: l)) with (last_opt (y :: l)).
  destruct (last_opt (y :: l)) eqn:E; [reflexivity|].
  exfalso. clear x. revert y E.
  induction l as [|z l IH]; intros y E; [discriminate|].
  exact (IH z E).
Qed.

Lemma last_opt_map {A B : Type} (f : A -> B) (l : list A) :
  last_opt (map f l) = option_map f (last_opt l).
Proof.
  induction l as [|x l IH]; [reflexivity|].
  change (map f (x :: l)) with (f x :: map f l).
  rewrite !last_opt_cons, IH. now destruct (last_opt l).
Qed.

Lemma last_opt_length {A : Type} (l : list A) :
  1 <= List.length l -> exists x, last_opt l = Some x.
Proof.
  destruct l as [|x l]; [simpl; lia|]. intros _.
  rewrite last_opt_cons. destruct (last_opt l); eauto.
Qed.

Lemma last_keyed_filter {A : Type} (key : A -> string) (k : string)
      (l : list A) :
  Dict.last_keyed key k l
  = last_opt (filter (fun x => String.eqb (key x) k) l).
Proof.
  induction l as [|x l IH]; [reflexivity|].
  unfold Dict.last_keyed. simpl fold_left.
  rewrite DictFacts.last_keyed_from, IH. simpl filter.
  destruct (String.eqb (key x) k).
  - now rewrite last_opt_cons.
  - now destruct (last_opt _).
Qed.

(** ** Link discovery *)

Lemma scan_from (self : CNNNewsScraper) (links : list Soup.node)
      (acc : list ArticleRef) :
  fold_left
    (fun articles link =>
       match candidate self link with
       | Some a => articles ++ [a]
       | None => articles
       end) links acc
  = acc ++ omap (candidate self) links.
Proof.
  revert acc; induction links as [|link links IH]; intros acc; simpl.
  - now rewrite app_nil_r.
  - rewrite IH. destruct (candidate self link); [|reflexivity].
    now rewrite <- app_assoc.
Qed.

(** The loop appends the candidates of the anchors, in traversal order. *)
Lemma scan_omap (self : CNNNewsScraper) (links : list Soup.node) :
  scan self links = omap (candidate self) links.
Proof. unfold scan. now rewrite scan_from. Qed.

(** What one anchor contributes. *)
Lemma candidate_passes (self : CNNNewsScraper) (link : Soup.node) :
  candidate self link
  = if passes link
    then option_map
           (fun t => {| ref_title := Soup.get_text_strip link; ref_url := t |})
           (target self link)
    else None.
Proof.
  unfold candidate, passes, target.
  destruct (media_label _); [reflexivity|]. simpl.
  destruct (link_href link) as [h|]; simpl; [|reflexivity].
  destruct (PyStr.truthy h && _); simpl; [|reflexivity].
  now destruct (PyStr.truthy _).
Qed.

Lemma candidate_Some (self : CNNNewsScraper) (link : Soup.node)
      (r : ArticleRef) :
  candidate self link = Some r ->
  media_label (ref_title r) = false
  /\ ref_title r = Soup.get_text_strip link
  /\ exists h, link_href link = Some h
               /\ Re.search Re.article_pattern h = true
               /\ ref_url r = absolute self h.
Proof.
  unfold candidate.
  destruct (media_label (Soup.get_text_strip link)) eqn:M; [discriminate|].
  destruct (link_href link) as [h|]; simpl; [|discriminate].
  destruct (PyStr.truthy h); simpl; [|discriminate].
  destruct (Re.search Re.article_pattern h) eqn:S; [|discriminate].
  destruct (PyStr.truthy _); [|discriminate].
  intros E; inversion E; subst; simpl. repeat split; eauto.
Qed.

Lemma unique_In (l : list ArticleRef) (r : ArticleRef) :
  In r (unique l) -> In r l.
Proof.
  unfold unique, Dict.values, Dict.comprehension. intros H.
  apply in_map_iff in H as (kv & <- & H).
  destruct (DictFacts.extend_In ref_url _ _ _ H) as [H1|[]]. exact H1.
Qed.

(** After the comprehension, the one reference left for a URL is the last
    one the loop appended for it. *)
Lemma unique_with_url (u : string) (l : list ArticleRef) :
  with_url u (unique l)
  = match last_opt (with_url u l) with
    | Some x => [x]
    | None => []
    end.
Proof.
  unfold with_url at 1. unfold unique, Dict.comprehension.
  destruct (DictFacts.extend_inv ref_url l [])
    as [Hn Hk]; [constructor | constructor |].
  rewrite (DictFacts.values_keyed ref_url u _ Hn Hk).
  rewrite DictFacts.lookup_extend. simpl.
  rewrite last_keyed_filter. unfold with_url.
  now destruct (last_opt _).
Qed.

(** Where every anchor sharing [u] passes the filters, the references
    appended for [u] are those of these anchors, in order. *)
Lemma with_url_sharing (self : CNNNewsScraper) (u : string)
      (links : list Soup.node) :
  (forall link, In link (sharing self u links) -> passes link = true) ->
  with_url u (omap (candidate self) links)
  = map (fun link =>
           {| ref_title := Soup.get_text_strip link; ref_url := u |})
        (sharing self u links).
Proof.
  induction links as [|link links IH]; intros H; [reflexivity|].
  simpl omap. unfold sharing in *. simpl filter in *.
  rewrite candidate_passes.
  destruct (target self link) as [t|] eqn:T; simpl.
  - destruct (String.eqb t u) eqn:E.
    + rewrite (H link (or_introl eq_refl)). simpl. rewrite E.
      apply String.eqb_eq in E; subst t. simpl. f_equal.
      apply IH. intros l Hl. apply H. now right.
    + destruct (passes link); simpl; [rewrite E|]; now apply IH.
  - destruct (passes link); simpl; now apply IH.
Qed.

(** ** The scraper on the small site *)

Example demo_links :
  parse_main_page Demo.site Demo.scraper Demo.landing_html
  = Ret [Demo.foo_ref; Demo.gone_ref].
Proof. vm_compute. reflexivity. Qed.

Example demo_article :
  fetch_article Demo.site Demo.scraper Demo.foo_ref
  = Ret (Some Demo.foo_article).
Proof. vm_compute. reflexivity. Qed.

Example demo_crawl :
  get_main_page_articles Demo.site Demo.scraper = Ret [Demo.foo_article].
Proof. vm_compute. reflexivity. Qed.

Example demo_main : status (main Demo.site Demo.args) = 0%Z.
Proof. vm_compute. reflexivity. Qed.

Example demo_down : status (main Demo.down Demo.args) = 1%Z.
Proof. vm_compute. reflexivity. Qed.

(** A page that the parser rejects makes the worker raise, and the crawl
    with it. *)
Example demo_picky :
  fetch_article Demo.picky Demo.scraper Demo.foo_ref
  = Raise ParserRejectedMarkup
  /\ get_main_page_articles Demo.picky Demo.scraper
     = Raise ParserRejectedMarkup.
Proof. split; vm_compute; reflexivity. Qed.

(** ** The parser *)

(** [parse_main_page] returns the links of the parsed markup, and raises
    when the parser rejects the markup. *)
Lemma parse_main_page_value (w : World) (self : CNNNewsScraper)
      (html : string) :
  parse_main_page w self html
  = match html_parser w html with
    | Some soup => Ret (parse_soup self soup)
    | None => Raise ParserRejectedMarkup
    end.
Proof.
  unfold parse_main_page, BeautifulSoup. now destruct (html_parser w html).
Qed.

Lemma parse_main_page_Ret (w : World) (self : CNNNewsScraper)
      (html : string) (refs : list ArticleRef) :
  parse_main_page w self html = Ret refs
  <-> exists soup,
      html_parser w html = Some soup /\ refs = parse_soup self soup.
Proof.
  rewrite parse_main_page_value. split.
  - destruct (html_parser w html) as [soup|]; [|discriminate].
    intros H; inversion H. now exists soup.
  - intros (soup & -> & ->). reflexivity.
Qed.

Lemma parse_soup_In (self : CNNNewsScraper) (soup : list Soup.node)
      (r : ArticleRef) :
  In r (parse_soup self soup) ->
  exists link, In link (anchors soup) /\ candidate self link = Some r.
Proof.
  unfold parse_soup. intros H. apply unique_In in H.
  rewrite scan_omap in H. now apply In_omap in H.
Qed.

(** ** Claims on link discovery *)

(** C6: every reference that link extraction returns has a URL with a
    date path in it: the pattern finds a match in the URL, that is, the
    URL has a substring made of a slash, four digits, a slash, two digits,
    a slash, two digits and a slash. *)
Theorem parse_main_page_date_path
        (w : World) (self : CNNNewsScraper) (html : string)
        (refs : list ArticleRef) (r : ArticleRef) :
  parse_main_page w self html = Ret refs ->
  In r refs ->
  Re.search Re.article_pattern (ref_url r) = true
  /\ exists a m b,
      ref_url r = (a ++ m ++ b)%string /\ Re.date_path_string m.
Proof.
  intros Hp H. apply parse_main_page_Ret in Hp as (soup & _ & ->).
  apply parse_soup_In in H as (link & _ & Hc).
  apply candidate_Some in Hc as (_ & _ & h & _ & Hs & Hu).
  assert (S : Re.search Re.article_pattern (ref_url r) = true).
  { rewrite Hu. unfold absolute.
    destruct (PyStr.startswith "/" h); [|exact Hs].
    now apply ReFacts.search_app. }
  split; [exact S|]. now apply ReFacts.search_iff.
Qed.

Lemma parse_main_page_date_path_witness :
  Re.search Re.article_pattern (ref_url Demo.foo_ref) = true
  /\ exists a m b,
      ref_url Demo.foo_ref = (a ++ m ++ b)%string /\ Re.date_path_string m.
Proof.
  apply (parse_main_page_date_path
           Demo.site Demo.scraper Demo.landing_html
           [Demo.foo_ref; Demo.gone_ref] Demo.foo_ref).
  - vm_compute. reflexivity.
  - left. reflexivity.
Defined.

(** C7: an anchor whose visible text contains "Video" or "Gallery" is
    left out whatever its target: it yields no candidate, the outcome of
    link extraction is the one obtained with these anchors removed from
    the page, and no returned reference carries such a title. *)
Theorem parse_main_page_media_excluded
        (w : World) (self : CNNNewsScraper) (html : string) :
  (forall link,
      media_label (Soup.get_text_strip link) = true ->
      candidate self link = None)
  /\ parse_main_page w self html
     = (soup <- BeautifulSoup w html ;;
        Ret (unique
               (scan self
                  (filter
                     (fun link =>
                        negb (media_label (Soup.get_text_strip link)))
                     (anchors soup)))))
  /\ (forall refs r,
         parse_main_page w self html = Ret refs ->
         In r refs ->
         PyStr.contains "Video" (ref_title r) = false
         /\ PyStr.contains "Gallery" (ref_title r) = false).
Proof.
  assert (Hdrop : forall link,
             media_label (Soup.get_text_strip link) = true ->
             candidate self link = None).
  { intros link M. unfold candidate. now rewrite M. }
  split; [exact Hdrop|]. split.
  - unfold parse_main_page. destruct (BeautifulSoup w html) as [soup|e];
      [|reflexivity].
    simpl. unfold parse_soup. do 2 f_equal. rewrite !scan_omap.
    induction (anchors soup) as [|link links IH]; [reflexivity|].
    simpl. destruct (media_label (Soup.get_text_strip link)) eqn:M; simpl.
    + now rewrite (Hdrop link M).
    + now rewrite IH.
  - intros refs r Hp H. apply parse_main_page_Ret in Hp as (soup & _ & ->).
    apply parse_soup_In in H as (link & _ & Hc).
    apply candidate_Some in Hc as (M & _).
    unfold media_label in M. now apply orb_false_iff in M.
Qed.

(** C5: when two or more anchors share a normalized target URL, all of
    them passing the media-label and date-path filters with visible text,
    link extraction returns exactly one reference for that URL, and its
    title is the visible text of the last of these anchors in traversal
    order. *)
Theorem parse_main_page_last_wins
        (w : World) (self : CNNNewsScraper) (html u : string)
        (soup : list Soup.node) :
  html_parser w html = Some soup ->
  2 <= List.length (sharing self u (anchors soup)) ->
  (forall link,
      In link (sharing self u (anchors soup)) -> passes link = true) ->
  exists link refs,
    last_opt (sharing self u (anchors soup)) = Some link
    /\ parse_main_page w self html = Ret refs
    /\ with_url u refs
       = [{| ref_title := Soup.get_text_strip link; ref_url := u |}].
Proof.
  intros Hsoup Hlen Hpass.
  destruct (last_opt_length (sharing self u (anchors soup)))
    as [link Hlast]; [lia|].
  exists link, (parse_soup self soup). split; [exact Hlast|]. split.
  - rewrite parse_main_page_value, Hsoup. reflexivity.
  - unfold parse_soup.
    rewrite unique_with_url, scan_omap, (with_url_sharing _ _ _ Hpass).
    now rewrite last_opt_map, Hlast.
Qed.

Lemma parse_main_page_last_wins_witness :
  exists link refs,
    last_opt (sharing Demo.scraper Demo.foo_url (anchors Demo.landing_soup))
    = Some link
    /\ parse_main_page Demo.site Demo.scraper Demo.landing_html = Ret refs
    /\ with_url Demo.foo_url refs
       = [{| ref_title := Soup.get_text_strip link;
             ref_url := Demo.foo_url |}].
Proof.
  apply (parse_main_page_last_wins
           Demo.site Demo.scraper Demo.landing_html Demo.foo_url
           Demo.landing_soup).
  - reflexivity.
  - vm_compute. lia.
  - intros link H. vm_compute in H.
    destruct H as [<-|[<-|[]]]; reflexivity.
Defined.

(** The last of the two anchors of the small site gives the title. *)
Example demo_last_wins :
  last_opt (sharing Demo.scraper Demo.foo_url (anchors Demo.landing_soup))
  = Some Demo.a_again
  /\ Soup.get_text_strip Demo.a_again = "Foo Bar, again".
Proof. split; vm_compute; reflexivity. Qed.

(** ** Article extraction *)

Lemma app_not_empty (a : string) (c : ascii) (b : string) :
  (a ++ String c b)%string <> "".
Proof. destruct a; discriminate. Qed.

Lemma strftime_not_empty (dt : datetime) : Fmt.strftime dt <> "".
Proof. unfold Fmt.strftime. apply app_not_empty. Qed.

Lemma fixed_length (w n : nat) : String.length (Fmt.fixed w n) = w.
Proof.
  revert n; induction w as [|w IH]; intros n; simpl; [reflexivity|].
  assert (L : forall a b : string,
             String.length (a ++ b) = String.length a + String.length b).
  { intros a b; induction a as [|c a IHa]; simpl; [reflexivity | now rewrite IHa]. }
  rewrite L, IH. simpl. lia.
Qed.

Lemma width_bound (k fuel n : nat) : n < 10 ^ S k -> Fmt.width fuel n <= S k.
Proof.
  revert fuel n; induction k as [|k IH]; intros fuel n H.
  - destruct fuel as [|f]; cbn [Fmt.width]; [lia|].
    destruct (n <? 10)%nat eqn:E; [lia|].
    apply Nat.ltb_ge in E. change (10 ^ 1) with 10 in H. lia.
  - destruct fuel as [|f]; cbn [Fmt.width]; [lia|].
    destruct (n <? 10)%nat; [lia|].
    apply le_n_S, IH.
    apply Nat.Div0.div_lt_upper_bound.
    rewrite Nat.pow_succ_r' in H. exact H.
Qed.

Lemma padded_fixed (k n : nat) : n < 10 ^ S k -> Fmt.padded (S k) n = Fmt.fixed (S k) n.
Proof.
  intros H. unfold Fmt.padded.
  now rewrite (Nat.max_l _ _ (width_bound k n n H)).
Qed.

Lemma width_lower (k fuel n : nat) :
  10 ^ k <= n -> k <= fuel -> S k <= Fmt.width fuel n.
Proof.
  revert fuel n; induction k as [|k IH]; intros fuel n Hn Hf.
  - destruct fuel as [|f]; cbn [Fmt.width]; [lia|].
    destruct (n <? 10)%nat; lia.
  - destruct fuel as [|f]; [lia|]. cbn [Fmt.width].
    rewrite Nat.pow_succ_r' in Hn.
    destruct (n <? 10)%nat eqn:E.
    + apply Nat.ltb_lt in E. pose proof (Nat.pow_nonzero 10 k). lia.
    + apply le_n_S, IH; [|lia].
      apply Nat.div_le_lower_bound; lia.
Qed.

(** A number of exactly [S k] digits is written on [S k] digits, whatever
    smaller width is asked for. *)
Lemma padded_exact (w k n : nat) :
  10 ^ k <= n -> n < 10 ^ S k -> w <= S k ->
  Fmt.padded w n = Fmt.fixed (S k) n.
Proof.
  intros Hlo Hhi Hw. unfold Fmt.padded.
  pose proof (width_bound k n n Hhi).
  assert (k <= n).
  { pose proof (Nat.pow_gt_lin_r 10 k). lia. }
  pose proof (width_lower k n n Hlo H0).
  f_equal. lia.
Qed.

Lemma string_length_app (a b : string) :
  String.length (a ++ b) = String.length a + String.length b.
Proof.
  induction a as [|c a IH]; simpl; [reflexivity | now rewrite IH].
Qed.

(** The layout of the specification has nineteen characters. *)
Lemma iso_length (dt : datetime) : String.length (Fmt.iso dt) = 19.
Proof.
  unfold Fmt.iso. rewrite !string_length_app, !fixed_length. reflexivity.
Qed.

(** With a year of four digits and the other fields of at most two, the
    date is written in the layout [YYYY-MM-DD HH:MM:SS]. *)
Lemma strftime_layout (dt : datetime) :
  10 ^ 3 <= year dt -> year dt < 10 ^ 4 -> fits dt ->
  Fmt.strftime dt = Fmt.iso dt.
Proof.
  intros Hlo Hhi (Hm & Hd & Hh & Hi & Hs). unfold Fmt.strftime, Fmt.iso.
  rewrite (padded_exact 1 3), !(padded_fixed 1); auto; lia.
Qed.

(** With a year below 1000 the date is shorter than the layout. *)
Lemma strftime_short (dt : datetime) :
  year dt < 10 ^ 3 -> fits dt -> String.length (Fmt.strftime dt) < 19.
Proof.
  intros Hy (Hm & Hd & Hh & Hi & Hs). unfold Fmt.strftime.
  rewrite !(padded_fixed 1) by assumption.
  rewrite !string_length_app, !fixed_length. unfold Fmt.padded.
  rewrite fixed_length. pose proof (width_bound 2 (year dt) (year dt) Hy).
  simpl String.length. lia.
Qed.

(** The date never raises: it is the formatted timestamp when the page
    is stamped, the sentinel otherwise. *)
Lemma extract_date_value (w : World) (soup : list Soup.node) :
  extract_date w soup = Ret (date_of w soup).
Proof.
  unfold extract_date, strptime_exn, date_of, stamped.
  destruct (date_text soup) as [s|]; [|reflexivity].
  destruct (PyStr.truthy s); [|reflexivity].
  now destruct (strptime w s date_format).
Qed.

(** Extraction returns the article of the parsed page, and raises when
    the parser rejects the page. *)
Lemma extract_value (w : World) (ref : ArticleRef) (page : string) :
  extract w ref page
  = match html_parser w page with
    | Some soup => Ret (article_of w ref soup)
    | None => Raise ParserRejectedMarkup
    end.
Proof.
  unfold extract, BeautifulSoup.
  destruct (html_parser w page) as [soup|]; [|reflexivity].
  simpl. now rewrite extract_date_value.
Qed.

(** What the worker does: [None] for a failed request, the article of
    the page when the parser accepts it, and the parser's exception when
    it does not. *)
Lemma fetch_article_value (w : World) (self : CNNNewsScraper)
      (ref : ArticleRef) :
  fetch_article w self ref
  = match http_get w (user_agent self) (ref_url ref) with
    | Some page =>
        match html_parser w page with
        | Some soup => Ret (Some (article_of w ref soup))
        | None => Raise ParserRejectedMarkup
        end
    | None => Ret None
    end.
Proof.
  unfold fetch_article, session_get.
  destruct (http_get w (user_agent self) (ref_url ref)) as [page|];
    [|reflexivity].
  simpl. rewrite extract_value.
  now destruct (html_parser w page).
Qed.

Lemma fetch_article_Some (w : World) (self : CNNNewsScraper)
      (ref : ArticleRef) (a : Article) :
  fetch_article w self ref = Ret (Some a) ->
  exists page soup,
    http_get w (user_agent self) (ref_url ref) = Some page
    /\ html_parser w page = Some soup
    /\ a = article_of w ref soup.
Proof.
  rewrite fetch_article_value.
  destruct (http_get w (user_agent self) (ref_url ref)) as [page|] eqn:G;
    [|discriminate].
  destruct (html_parser w page) as [soup|] eqn:P; [|discriminate].
  intros H; inversion H. now exists page, soup.
Qed.

(** When the worker returns, it returns what the link yields. *)
Lemma fetch_article_Ret (w : World) (self : CNNNewsScraper)
      (ref : ArticleRef) (o : option Article) :
  fetch_article w self ref = Ret o -> o = produced w self ref.
Proof.
  rewrite fetch_article_value. unfold produced.
  destruct (http_get w (user_agent self) (ref_url ref)) as [page|].
  - rewrite extract_value. destruct (html_parser w page); [|discriminate].
    intros H; now inversion H.
  - intros H; now inversion H.
Qed.


Lemma clean_sentinel : clean no_content = no_content.
Proof. vm_compute. reflexivity. Qed.

Lemma extract_content_cases (soup : list Soup.node) :
  extract_content soup
  = match primary soup, generic soup with
    | [], [] => no_content
    | [], ps => cleaned ps
    | ps, _ => cleaned ps
    end.
Proof.
  unfold extract_content, paragraphs. fold (primary soup) (generic soup).
  destruct (primary soup) as [|p ps]; [destruct (generic soup) as [|p ps]|].
  - exact clean_sentinel.
  - reflexivity.
  - reflexivity.
Qed.

(** ** Claims on article extraction *)

(** C4, as amended: on a fetched page whose markup the parser accepts,
    article extraction returns an article and does not raise, whatever
    the timestamp text.  The date of the article is never empty: it is
    the sentinel "No Date Found" when the timestamp element is absent,
    its text is empty or the text does not parse against the fixed
    pattern, and otherwise the parsed timestamp formatted by
    [%Y-%m-%d %H:%M:%S], which is the layout [YYYY-MM-DD HH:MM:SS] when
    the year has four digits. *)
Theorem fetch_article_date
        (w : World) (self : CNNNewsScraper) (ref : ArticleRef)
        (page : string) (soup : list Soup.node) :
  http_get w (user_agent self) (ref_url ref) = Some page ->
  html_parser w page = Some soup ->
  exists a,
    fetch_article w self ref = Ret (Some a)
    /\ date a <> ""
    /\ ((date a = no_date
         /\ (date_text soup = None
             \/ exists s,
                 date_text soup = Some s
                 /\ (s = "" \/ strptime w s date_format = None)))
        \/ exists s dt,
            date_text soup = Some s
            /\ s <> ""
            /\ strptime w s date_format = Some dt
            /\ date a = Fmt.strftime dt
            /\ (10 ^ 3 <= year dt -> year dt < 10 ^ 4 -> fits dt ->
                date a = Fmt.iso dt)).
Proof.
  intros Hget Hsoup. exists (article_of w ref soup).
  split; [rewrite fetch_article_value, Hget, Hsoup; reflexivity|].
  unfold article_of, date_of, stamped. cbn [date].
  destruct (date_text soup) as [s|] eqn:T.
  - destruct (PyStr.truthy s) eqn:Ts.
    + destruct (strptime w s date_format) as [dt|] eqn:P.
      * split; [apply strftime_not_empty|]. right. exists s, dt.
        repeat split; auto; [now apply PyStrFacts.truthy_true|].
        apply strftime_layout.
      * split; [discriminate|]. left. split; [reflexivity|].
        right. exists s. auto.
    + split; [discriminate|]. left. split; [reflexivity|].
      right. exists s. split; [reflexivity|]. left.
      now apply PyStrFacts.truthy_false.
  - split; [discriminate|]. left. auto.
Qed.

Lemma fetch_article_date_witness :
  exists a,
    fetch_article Demo.site Demo.scraper Demo.foo_ref = Ret (Some a)
    /\ date a <> ""
    /\ ((date a = no_date
         /\ (date_text Demo.foo_soup = None
             \/ exists s,
                 date_text Demo.foo_soup = Some s
                 /\ (s = ""
                     \/ strptime Demo.site s date_format = None)))
        \/ exists s dt,
            date_text Demo.foo_soup = Some s
            /\ s <> ""
            /\ strptime Demo.site s date_format = Some dt
            /\ date a = Fmt.strftime dt
            /\ (10 ^ 3 <= year dt -> year dt < 10 ^ 4 -> fits dt ->
                date a = Fmt.iso dt)).
Proof.
  apply (fetch_article_date
           Demo.site Demo.scraper Demo.foo_ref Demo.foo_html Demo.foo_soup).
  - reflexivity.
  - reflexivity.
Defined.

(** C4 as stated fails: a timestamp of the year 0099 parses, and the
    date of the article is then "99-03-15 10:00:00", which is neither the
    sentinel nor a string in the layout [YYYY-MM-DD HH:MM:SS]. *)
Lemma fetch_article_date_short :
  ~ (forall (w : World) (self : CNNNewsScraper) (ref : ArticleRef)
            (a : Article),
        fetch_article w self ref = Ret (Some a) ->
        date a = no_date \/ exists dt, date a = Fmt.iso dt).
Proof.
  intros H.
  destruct (H Demo.ancient Demo.scraper Demo.foo_ref Demo.old_article
              eq_refl) as [E|[dt E]].
  - discriminate E.
  - apply (f_equal String.length) in E. rewrite iso_length in E.
    discriminate E.
Qed.

(** On the small site the timestamp parses and comes out formatted. *)
Example demo_date :
  date_text Demo.foo_soup = Some Demo.stamp
  /\ date Demo.foo_article = "2024-03-15 09:05:00".
Proof. split; vm_compute; reflexivity. Qed.

(** C3, as amended: the body of a returned article is the sentinel
    "No Content Found" when neither the paragraph-content selector nor
    the generic paragraph selector matches an element; otherwise it is the
    texts of the matched elements (the paragraph-content ones if any, else
    the generic ones) joined by newlines, with "Follow:" removed and
    trimmed, which may be the empty string.  In both cases it has no
    white space at either end. *)
Theorem fetch_article_content
        (w : World) (self : CNNNewsScraper) (ref : ArticleRef)
        (a : Article) :
  fetch_article w self ref = Ret (Some a) ->
  exists page soup,
    http_get w (user_agent self) (ref_url ref) = Some page
    /\ html_parser w page = Some soup
    /\ content a
       = match primary soup, generic soup with
         | [], [] => no_content
         | [], ps => cleaned ps
         | ps, _ => cleaned ps
         end
    /\ PyStr.blank (PyStr.first_char (content a)) = false
    /\ PyStr.blank (PyStr.last_char (content a)) = false.
Proof.
  intros H. apply fetch_article_Some in H as (page & soup & Hget & Hs & ->).
  exists page, soup. split; [exact Hget|]. split; [exact Hs|].
  cbn [article_of content]. split.
  - apply extract_content_cases.
  - unfold extract_content, clean. apply PyStrFacts.strip_trimmed.
Qed.

Lemma fetch_article_content_witness :
  exists page soup,
    http_get Demo.site (user_agent Demo.scraper) (ref_url Demo.foo_ref)
    = Some page
    /\ html_parser Demo.site page = Some soup
    /\ content Demo.foo_article
       = match primary soup, generic soup with
         | [], [] => no_content
         | [], ps => cleaned ps
         | ps, _ => cleaned ps
         end
    /\ PyStr.blank (PyStr.first_char (content Demo.foo_article)) = false
    /\ PyStr.blank (PyStr.last_char (content Demo.foo_article)) = false.
Proof.
  apply (fetch_article_content Demo.site Demo.scraper Demo.foo_ref).
  vm_compute. reflexivity.
Defined.

(** C3 as stated fails: a page whose only paragraph is empty has an empty
    assembled text, and the body of its article is the empty string, not
    the sentinel. *)
Lemma fetch_article_content_empty :
  ~ (forall (w : World) (self : CNNNewsScraper) (ref : ArticleRef)
            (a : Article) (page : string) (soup : list Soup.node),
        fetch_article w self ref = Ret (Some a) ->
        http_get w (user_agent self) (ref_url ref) = Some page ->
        html_parser w page = Some soup ->
        joined (paragraphs soup) = "" ->
        content a = no_content).
Proof.
  intros H.
  specialize
    (H Demo.bare Demo.scraper Demo.foo_ref
       {| title := ref_title Demo.foo_ref; date := no_date;
          content := ""; url := Demo.foo_url |}
       "<p></p>" Demo.empty_paragraph eq_refl eq_refl eq_refl eq_refl).
  discriminate H.
Qed.

(** The body on that page. *)
Example demo_empty_body :
  paragraphs Demo.empty_paragraph = Demo.empty_paragraph
  /\ extract_content Demo.empty_paragraph = "".
Proof. split; vm_compute; reflexivity. Qed.

(** ** The crawl *)

Lemma insert_perm (w : World) (f : future) (l : list future) :
  Permutation (f :: l) (Completion.insert w f l).
Proof.
  induction l as [|g l IH]; simpl; [apply Permutation_refl|].
  destruct (Completion.instant w f <? Completion.instant w g)%nat.
  - apply Permutation_refl.
  - transitivity (g :: f :: l); [apply perm_swap | now constructor].
Qed.

(** [as_completed] yields every future once. *)
Lemma as_completed_perm (w : World) (fs : list future) :
  Permutation fs (Completion.as_completed w fs).
Proof.
  unfold Completion.as_completed.
  enough (G : forall acc,
             Permutation (acc ++ fs)
               (fold_left (fun done f => Completion.insert w f done) fs acc))
    by exact (G []).
  induction fs as [|f fs IH]; intros acc; simpl.
  - rewrite app_nil_r. apply Permutation_refl.
  - rewrite <- IH.
    transitivity ((f :: acc) ++ fs).
    + symmetry. apply Permutation_middle.
    + apply Permutation_app_tail, insert_perm.
Qed.

(** The loop over the completed futures: it returns what it kept of
    each future, in the order of completion, when every task returned,
    and otherwise raises what one of the tasks raised. *)
Lemma gather_outcome (fs : list future) (results : list Article) :
  (Forall (fun f => exists o, snd f = Ret o) fs
   /\ gather fs results = Ret (results ++ omap kept fs))
  \/ exists f e, In f fs /\ snd f = Raise e /\ gather fs results = Raise e.
Proof.
  revert results; induction fs as [|[a r] fs IH]; intros results.
  - left. split; [constructor | simpl; now rewrite app_nil_r].
  - destruct r as [o|e].
    + cbn [gather bind].
      destruct (IH (match o with
                    | Some x => results ++ [x]
                    | None => results
                    end)) as [[Hall Hg]|(f & e & Hin & Hf & Hg)].
      * left. split; [constructor; [now exists o | exact Hall]|].
        rewrite Hg. cbn [omap]. unfold kept at 2. cbn [snd].
        destruct o; [now rewrite <- app_assoc | reflexivity].
      * right. exists f, e. split; [now right | now split].
    + right. exists (a, Raise e), e. split; [now left | now split].
Qed.

Lemma gather_Ret (fs : list future) (acc results : list Article) :
  gather fs acc = Ret results ->
  Forall (fun f => exists o, snd f = Ret o) fs
  /\ results = acc ++ omap kept fs.
Proof.
  intros H. destruct (gather_outcome fs acc) as [[Hall Hg]|(f & e & _ & _ & Hg)].
  - rewrite Hg in H. inversion H. now split.
  - rewrite Hg in H. discriminate.
Qed.

Lemma submit_all_In (w : World) (self : CNNNewsScraper)
      (articles : list ArticleRef) (f : future) :
  In f (submit_all w self articles)
  <-> exists a, In a articles /\ f = (a, fetch_article w self a).
Proof.
  unfold submit_all. rewrite in_map_iff. split.
  - intros (a & <- & H). now exists a.
  - intros (a & H & ->). now exists a.
Qed.

(** A worker returns when the parser does not reject its page. *)
Lemma fetch_article_returns (w : World) (self : CNNNewsScraper)
      (ref : ArticleRef) :
  rejected w self ref = false -> exists o, fetch_article w self ref = Ret o.
Proof.
  rewrite fetch_article_value. unfold rejected.
  destruct (http_get w (user_agent self) (ref_url ref)) as [page|];
    [|eauto].
  destruct (html_parser w page); [eauto | discriminate].
Qed.

Lemma kept_submit_all (w : World) (self : CNNNewsScraper)
      (articles : list ArticleRef) :
  Forall (fun f => exists o, snd f = Ret o) (submit_all w self articles) ->
  omap kept (submit_all w self articles) = omap (produced w self) articles.
Proof.
  unfold submit_all. induction articles as [|a l IH]; [reflexivity|].
  intros H. inversion H as [|? ? [o Ho] Hl]; subst. simpl in Ho.
  cbn [map omap]. unfold kept at 1. cbn [snd]. rewrite Ho.
  rewrite (fetch_article_Ret w self a o Ho) at 1.
  now rewrite (IH Hl).
Qed.

Lemma fetch_main_page_value (w : World) (self : CNNNewsScraper) :
  fetch_main_page w self
  = Ret (http_get w (user_agent self) (base_url self)).
Proof.
  unfold fetch_main_page, session_get.
  now destruct (http_get w (user_agent self) (base_url self)).
Qed.

(** The crawl of a site whose main page cannot be fetched. *)
Lemma crawl_down (w : World) (self : CNNNewsScraper) :
  http_get w (user_agent self) (base_url self) = None ->
  get_main_page_articles w self = Ret [].
Proof.
  intros H. unfold get_main_page_articles.
  now rewrite fetch_main_page_value, H.
Qed.

(** The crawl once the main page is fetched with markup and parsed. *)
Lemma crawl_parsed (w : World) (self : CNNNewsScraper) (html : string)
      (links : list ArticleRef) :
  http_get w (user_agent self) (base_url self) = Some html ->
  html <> "" ->
  parse_main_page w self html = Ret links ->
  get_main_page_articles w self
  = match links with
    | [] => Ret []
    | _ :: _ =>
        if (threads self <=? 0)%Z then Raise ValueError
        else gather (Completion.as_completed w (submit_all w self links)) []
    end.
Proof.
  intros Hget Hhtml Hp. unfold get_main_page_articles.
  rewrite fetch_main_page_value, Hget. cbn [bind].
  apply PyStrFacts.truthy_true in Hhtml. rewrite Hhtml, Hp. cbn [bind].
  destruct links; [reflexivity|]. unfold ThreadPoolExecutor.
  now destruct (threads self <=? 0)%Z.
Qed.

(** What the crawl returns, when it returns. *)
Lemma crawl_returned (w : World) (self : CNNNewsScraper) (html : string)
      (links : list ArticleRef) (results : list Article) :
  http_get w (user_agent self) (base_url self) = Some html ->
  html <> "" ->
  parse_main_page w self html = Ret links ->
  get_main_page_articles w self = Ret results ->
  Permutation results (omap (produced w self) links).
Proof.
  intros Hget Hhtml Hp Hres.
  rewrite (crawl_parsed w self html links Hget Hhtml Hp) in Hres.
  destruct links as [|a l]; [inversion Hres; constructor|].
  destruct (threads self <=? 0)%Z; [discriminate|].
  apply gather_Ret in Hres as [Hall ->]. cbn [app].
  assert (Hsub : Forall (fun f => exists o, snd f = Ret o)
                        (submit_all w self (a :: l))).
  { apply (Permutation_Forall
             (Permutation_sym (as_completed_perm w _)) Hall). }
  rewrite <- (kept_submit_all w self (a :: l) Hsub).
  apply omap_perm. symmetry. apply as_completed_perm.
Qed.

(** The crawl returns when the pool can be built and the parser rejects
    none of the fetched pages. *)
Lemma crawl_links (w : World) (self : CNNNewsScraper) (html : string)
      (links : list ArticleRef) :
  http_get w (user_agent self) (base_url self) = Some html ->
  html <> "" ->
  parse_main_page w self html = Ret links ->
  (0 < threads self)%Z ->
  (forall ref, In ref links -> rejected w self ref = false) ->
  exists results, get_main_page_articles w self = Ret results.
Proof.
  intros Hget Hhtml Hp Hthreads Hacc.
  rewrite (crawl_parsed w self html links Hget Hhtml Hp).
  destruct links as [|a l]; [eauto|].
  destruct (threads self <=? 0)%Z eqn:T; [apply Z.leb_le in T; lia|].
  destruct (gather_outcome
              (Completion.as_completed w (submit_all w self (a :: l))) [])
    as [[_ Hg]|(f & e & Hin & Hf & _)]; [eauto|].
  exfalso.
  apply (Permutation_in _ (Permutation_sym (as_completed_perm w _))) in Hin.
  apply submit_all_In in Hin as (ref & Href & ->). simpl in Hf.
  destruct (fetch_article_returns w self ref (Hacc ref Href)) as [o Ho].
  congruence.
Qed.

Lemma produced_url (w : World) (self : CNNNewsScraper) (ref : ArticleRef)
      (a : Article) :
  produced w self ref = Some a ->
  url a = ref_url ref
  /\ exists page,
      http_get w (user_agent self) (ref_url ref) = Some page
      /\ extract w ref page = Ret a.
Proof.
  unfold produced.
  destruct (http_get w (user_agent self) (ref_url ref)) as [page|];
    [|discriminate].
  destruct (extract w ref page) as [x|e] eqn:E; [|discriminate].
  intros H; inversion H; subst x. split; [|now exists page].
  rewrite extract_value in E.
  destruct (html_parser w page); [|discriminate].
  now inversion E.
Qed.

Lemma produced_fetched (w : World) (self : CNNNewsScraper)
      (ref : ArticleRef) (page : string) :
  http_get w (user_agent self) (ref_url ref) = Some page ->
  rejected w self ref = false ->
  exists a, produced w self ref = Some a.
Proof.
  unfold produced, rejected. intros ->. rewrite extract_value.
  destruct (html_parser w page); [eauto | discriminate].
Qed.

(** ** Claims on the crawl *)

(** C1: a link whose fetch fails is dropped.  The worker returns [None]
    for it and raises nothing; whenever the crawl returns, it returns, up
    to order, exactly the articles extracted from the pages that were
    fetched, with no record for a link whose fetch failed; and the crawl
    does return when the pool has a worker and the parser rejects none
    of the fetched pages, however many fetches fail. *)
Theorem crawl_drops_failed_fetches
        (w : World) (self : CNNNewsScraper) (html : string)
        (links : list ArticleRef) :
  http_get w (user_agent self) (base_url self) = Some html ->
  html <> "" ->
  parse_main_page w self html = Ret links ->
  (forall ref,
      http_get w (user_agent self) (ref_url ref) = None ->
      fetch_article w self ref = Ret None)
  /\ (forall results,
         get_main_page_articles w self = Ret results ->
         Permutation results (omap (produced w self) links)
         /\ forall ref,
             In ref links ->
             http_get w (user_agent self) (ref_url ref) = None ->
             forall a, In a results -> url a <> ref_url ref)
  /\ ((0 < threads self)%Z ->
      (forall ref, In ref links -> rejected w self ref = false) ->
      exists results, get_main_page_articles w self = Ret results).
Proof.
  intros Hget Hhtml Hp. split; [|split].
  - intros ref Hfail. rewrite fetch_article_value. now rewrite Hfail.
  - intros results Hres.
    pose proof (crawl_returned w self html links results Hget Hhtml Hp Hres)
      as Hperm.
    split; [exact Hperm|].
    intros ref _ Hfail a Ha Hurl.
    apply (Permutation_in _ Hperm) in Ha.
    apply In_omap in Ha as (ref' & _ & Hprod).
    apply produced_url in Hprod as (Hu & page & Hpage & _).
    rewrite <- Hu, Hurl, Hfail in Hpage. discriminate.
  - now apply (crawl_links w self html links).
Qed.

Lemma crawl_drops_failed_fetches_witness :
  (forall ref,
      http_get Demo.site (user_agent Demo.scraper) (ref_url ref) = None ->
      fetch_article Demo.site Demo.scraper ref = Ret None)
  /\ (forall results,
         get_main_page_articles Demo.site Demo.scraper = Ret results ->
         Permutation results
           (omap (produced Demo.site Demo.scraper)
                 [Demo.foo_ref; Demo.gone_ref])
         /\ forall ref,
             In ref [Demo.foo_ref; Demo.gone_ref] ->
             http_get Demo.site (user_agent Demo.scraper) (ref_url ref)
             = None ->
             forall a, In a results -> url a <> ref_url ref)
  /\ ((0 < threads Demo.scraper)%Z ->
      (forall ref,
          In ref [Demo.foo_ref; Demo.gone_ref] ->
          rejected Demo.site Demo.scraper ref = false) ->
      exists results,
        get_main_page_articles Demo.site Demo.scraper = Ret results).
Proof.
  apply (crawl_drops_failed_fetches
           Demo.site Demo.scraper Demo.landing_html).
  - reflexivity.
  - discriminate.
  - vm_compute. reflexivity.
Defined.

(** On the small site the link whose fetch fails leaves no record. *)
Example demo_dropped :
  fetch_article Demo.site Demo.scraper Demo.gone_ref = Ret None
  /\ get_main_page_articles Demo.site Demo.scraper = Ret [Demo.foo_article].
Proof. split; vm_compute; reflexivity. Qed.

(** C2: when the fetch of the main page fails, or when link extraction
    finds no link in its markup, the crawl returns the empty list and
    raises nothing. *)
Theorem crawl_empty (w : World) (self : CNNNewsScraper) :
  (http_get w (user_agent self) (base_url self) = None ->
   get_main_page_articles w self = Ret [])
  /\ (forall html,
         http_get w (user_agent self) (base_url self) = Some html ->
         parse_main_page w self html = Ret [] ->
         get_main_page_articles w self = Ret []).
Proof.
  split.
  - apply crawl_down.
  - unfold get_main_page_articles. rewrite fetch_main_page_value.
    intros html -> Hnone. cbn [bind]. rewrite Hnone.
    now destruct (PyStr.truthy html).
Qed.

(** C10: a main page fetched with an empty body is treated like a failed
    fetch: the crawl returns the empty list, whatever link extraction
    would make of the markup, as it does for any site that is down. *)
Theorem crawl_empty_body (w : World) (self : CNNNewsScraper) :
  http_get w (user_agent self) (base_url self) = Some "" ->
  get_main_page_articles w self = Ret []
  /\ forall w',
      http_get w' (user_agent self) (base_url self) = None ->
      get_main_page_articles w' self = get_main_page_articles w self.
Proof.
  intros Hget.
  assert (E : get_main_page_articles w self = Ret []).
  { unfold get_main_page_articles.
    rewrite fetch_main_page_value, Hget. reflexivity. }
  split; [exact E|].
  intros w' Hdown. rewrite E. now apply crawl_down.
Qed.

Lemma crawl_empty_body_witness :
  get_main_page_articles Demo.hollow Demo.scraper = Ret []
  /\ forall w',
      http_get w' (user_agent Demo.scraper) (base_url Demo.scraper) = None ->
      get_main_page_articles w' Demo.scraper
      = get_main_page_articles Demo.hollow Demo.scraper.
Proof.
  apply (crawl_empty_body Demo.hollow Demo.scraper). reflexivity.
Defined.

(** Link extraction on that site would have found links, and a test for
    [None] would have let the crawl go on. *)
Example demo_hollow_links :
  parse_main_page Demo.hollow Demo.scraper ""
  = Ret [Demo.foo_ref; Demo.gone_ref].
Proof. vm_compute. reflexivity. Qed.

(** C8, as amended: a run whose crawl ends with no article exits with a
    non-zero status.  A run whose crawl returns one article or more
    exits with status zero exactly when its output step goes through,
    and with a non-zero status when the output step raises; the number
    of failed fetches plays no part: with an output step that goes
    through, one fetched article page is enough for status zero. *)
Theorem main_exit_status (w : World) (args : Args) :
  (status (main w args) = 0%Z
   <-> exists a l,
        get_main_page_articles w (scraper_of args) = Ret (a :: l)
        /\ delivers w (report_of args (a :: l)) = true)
  /\ (get_main_page_articles w (scraper_of args) = Ret [] ->
      status (main w args) <> 0%Z)
  /\ (forall html links ref page,
         http_get w (user_agent (scraper_of args)) default_base_url
         = Some html ->
         html <> "" ->
         parse_main_page w (scraper_of args) html = Ret links ->
         (0 < arg_threads args)%Z ->
         (forall r, In r links -> rejected w (scraper_of args) r = false) ->
         In ref links ->
         http_get w (user_agent (scraper_of args)) (ref_url ref)
         = Some page ->
         (forall r, delivers w r = true) ->
         status (main w args) = 0%Z).
Proof.
  assert (Hsome : forall a l,
             get_main_page_articles w (scraper_of args) = Ret (a :: l) ->
             delivers w (report_of args (a :: l)) = true ->
             status (main w args) = 0%Z).
  { intros a l H D. unfold main. rewrite H. cbn [status]. now rewrite D. }
  split; [|split].
  - split; [|intros (a & l & H & D); exact (Hsome a l H D)].
    unfold main.
    destruct (get_main_page_articles w (scraper_of args)) as [[|a l]|e];
      try discriminate.
    cbn [status].
    destruct (delivers w (report_of args (a :: l))) eqn:D;
      [|discriminate].
    intros _. now exists a, l.
  - intros H. unfold main. rewrite H. discriminate.
  - intros html links ref page Hget Hhtml Hp Hthreads Hacc Hin Hpage Hdel.
    destruct (crawl_links w (scraper_of args) html links
                          Hget Hhtml Hp Hthreads Hacc) as [results Hres].
    pose proof (crawl_returned w (scraper_of args) html links results
                               Hget Hhtml Hp Hres) as Hperm.
    destruct (produced_fetched w (scraper_of args) ref page Hpage
                               (Hacc ref Hin)) as [a Ha].
    assert (Hk : In a (omap (produced w (scraper_of args)) links))
      by (apply In_omap; eauto).
    apply (Permutation_in _ (Permutation_sym Hperm)) in Hk.
    destruct results as [|x l]; [destruct Hk|].
    exact (Hsome x l Hres (Hdel _)).
Qed.

Lemma main_exit_status_witness :
  status (main Demo.site Demo.args) = 0%Z.
Proof.
  apply (main_exit_status Demo.site Demo.args).
  exists Demo.foo_article, []. split; vm_compute; reflexivity.
Defined.

(** C8 as stated fails: with an output file that cannot be opened, a run
    in JSON mode collects an article and exits with status 1. *)
Lemma main_exit_status_unwritable :
  ~ (forall (w : World) (args : Args) (a : Article) (l : list Article),
        get_main_page_articles w (scraper_of args) = Ret (a :: l) ->
        status (main w args) = 0%Z).
Proof.
  intros H.
  specialize (H Demo.readonly Demo.json_args Demo.foo_article [] eq_refl).
  discriminate H.
Qed.

(** With no worker allowed the pool cannot be built: the run ends on the
    exception, with a non-zero status. *)
Example demo_no_worker :
  get_main_page_articles Demo.site (init default_base_url 0 None)
  = Raise ValueError
  /\ status (main Demo.site
                  {| arg_threads := 0; arg_user_agent := None;
                     arg_content_preview := PAll; arg_output := Json;
                     arg_file := None |}) = 1%Z.
Proof. split; vm_compute; reflexivity. Qed.

(** ** The worker pool *)

Lemma replace_nth_length (i : nat) (x : Pool.slot) (l : list Pool.slot) :
  List.length (Pool.replace_nth i x l) = List.length l.
Proof.
  revert i; induction l as [|y l IH]; intros [|i]; simpl;
    try reflexivity.
  now rewrite IH.
Qed.

(** The tasks in flight are run by distinct worker threads. *)
Lemma in_flight_workers (s : Pool.state) :
  Pool.in_flight s <= List.length (Pool.workers s).
Proof. unfold Pool.in_flight. apply filter_length_le. Qed.

Lemma adjust_bounded (s : Pool.state) :
  Pool.bounded s ->
  (Z.of_nat (List.length (fst (Pool.adjust_thread_count s)))
   <= Pool.max_workers s)%Z.
Proof.
  unfold Pool.bounded, Pool.adjust_thread_count. intros H.
  destruct (Pool.idle_semaphore s); [|exact H].
  destruct (Z.of_nat (List.length (Pool.workers s)) <? Pool.max_workers s)%Z
    eqn:E; [|exact H].
  apply Z.ltb_lt in E. simpl. rewrite length_app. simpl. lia.
Qed.

(** A step starts a worker thread only below [max_workers], and never
    changes [max_workers]. *)
Lemma step_bounded (e : Pool.event) (s s' : Pool.state) :
  Pool.step e s = Some s' ->
  Pool.bounded s ->
  Pool.bounded s' /\ Pool.max_workers s' = Pool.max_workers s.
Proof.
  intros Hstep Hb. destruct e as [|i|i]; simpl in Hstep.
  - destruct (Pool.pending s) as [|a rest]; [discriminate|].
    pose proof (adjust_bounded s Hb) as Ha.
    destruct (Pool.adjust_thread_count s) as [ws sem].
    inversion Hstep; subst; clear Hstep. split; [exact Ha | reflexivity].
  - destruct (nth_error (Pool.workers s) i) as [[|b]|]; try discriminate.
    destruct (Pool.queue s) as [|a rest]; [discriminate|].
    inversion Hstep; subst; clear Hstep. split; [|reflexivity].
    unfold Pool.bounded. simpl. now rewrite replace_nth_length.
  - destruct (nth_error (Pool.workers s) i) as [[|b]|]; try discriminate.
    inversion Hstep; subst; clear Hstep. split; [|reflexivity].
    unfold Pool.bounded. simpl. now rewrite replace_nth_length.
Qed.

Lemma run_bounded (es : list Pool.event) (s s' : Pool.state) :
  Pool.run es s = Some s' ->
  Pool.bounded s ->
  Pool.bounded s' /\ Pool.max_workers s' = Pool.max_workers s.
Proof.
  revert s; induction es as [|e es IH]; intros s Hrun Hb; simpl in Hrun.
  - inversion Hrun; subst. now split.
  - destruct (Pool.step e s) as [s1|] eqn:E; [|discriminate].
    destruct (step_bounded e s s1 E Hb) as [Hb1 Hm1].
    destruct (IH s1 Hrun Hb1) as [Hb' Hm'].
    split; [exact Hb' | congruence].
Qed.

Lemma run_app (es1 es2 : list Pool.event) (s : Pool.state) :
  Pool.run (es1 ++ es2) s
  = match Pool.run es1 s with
    | Some s' => Pool.run es2 s'
    | None => None
    end.
Proof.
  revert s; induction es1 as [|e es1 IH]; intros s; simpl; [reflexivity|].
  destruct (Pool.step e s); [apply IH | reflexivity].
Qed.

(** One task submitted, taken and finished by the first worker. *)
Lemma one_task (k : Z) (a : ArticleRef) (l : list ArticleRef)
      (ws : list Pool.slot) (sem : nat) (done : list ArticleRef) :
  (0 < k)%Z ->
  (ws = [] /\ sem = 0) \/ (ws = [Pool.Idle] /\ sem = 1) ->
  Pool.run [Pool.Submit; Pool.Take 0; Pool.Finish 0]
    {| Pool.max_workers := k; Pool.pending := a :: l; Pool.queue := [];
       Pool.workers := ws; Pool.idle_semaphore := sem;
       Pool.completed := done |}
  = Some {| Pool.max_workers := k; Pool.pending := l; Pool.queue := [];
            Pool.workers := [Pool.Idle]; Pool.idle_semaphore := 1;
            Pool.completed := done ++ [a] |}.
Proof.
  intros Hk [[-> ->]|[-> ->]].
  - apply Z.ltb_lt in Hk.
    unfold Pool.run, Pool.step, Pool.adjust_thread_count.
    cbn [Pool.pending Pool.idle_semaphore Pool.workers Pool.max_workers
         List.length].
    change (Z.of_nat 0) with 0%Z. rewrite Hk. reflexivity.
  - reflexivity.
Qed.

(** The schedule that runs one task at a time completes every task, in
    the order of submission. *)
Lemma one_by_one_completes (k : Z) (articles : list ArticleRef) :
  (0 < k)%Z ->
  exists s,
    Pool.run (Pool.one_by_one articles) (Pool.start k articles) = Some s
    /\ Pool.quiet s = true
    /\ Pool.completed s = articles.
Proof.
  intros Hk.
  enough (G : forall ws sem done,
             (ws = [] /\ sem = 0) \/ (ws = [Pool.Idle] /\ sem = 1) ->
             exists s,
               Pool.run (Pool.one_by_one articles)
                 {| Pool.max_workers := k; Pool.pending := articles;
                    Pool.queue := []; Pool.workers := ws;
                    Pool.idle_semaphore := sem; Pool.completed := done |}
               = Some s
               /\ Pool.quiet s = true
               /\ Pool.completed s = done ++ articles).
  { apply (G [] 0 []). now left. }
  induction articles as [|a l IH]; intros ws sem done Hws.
  - eexists. split; [reflexivity|]. simpl. rewrite app_nil_r.
    destruct Hws as [[-> ->]|[-> ->]]; split; reflexivity.
  - destruct (IH [Pool.Idle] 1 (done ++ [a])) as (s & Hrun & Hq & Hc);
      [now right|].
    exists s. rewrite <- app_assoc in Hc. split; [|now split].
    change (Pool.one_by_one (a :: l))
      with ([Pool.Submit; Pool.Take 0; Pool.Finish 0] ++ Pool.one_by_one l).
    rewrite run_app, (one_task k a l ws sem done Hk Hws). exact Hrun.
Qed.

Lemma running_app (ws1 ws2 : list Pool.slot) :
  Pool.running (ws1 ++ ws2) = Pool.running ws1 ++ Pool.running ws2.
Proof. unfold Pool.running. apply flat_map_app. Qed.

(** A worker that takes a task adds it to the running ones. *)
Lemma running_take (i : nat) (a : ArticleRef) (ws : list Pool.slot) :
  nth_error ws i = Some Pool.Idle ->
  Permutation (a :: Pool.running ws)
              (Pool.running (Pool.replace_nth i (Pool.Busy a) ws)).
Proof.
  revert i; induction ws as [|x ws IH]; intros [|i] H; simpl in H;
    try discriminate.
  - inversion H; subst x. apply Permutation_refl.
  - destruct x as [|b]; simpl.
    + exact (IH i H).
    + transitivity (b :: a :: Pool.running ws);
        [apply perm_swap | constructor; exact (IH i H)].
Qed.

(** A worker that finishes a task takes it out of the running ones. *)
Lemma running_finish (i : nat) (a : ArticleRef) (ws : list Pool.slot) :
  nth_error ws i = Some (Pool.Busy a) ->
  Permutation (Pool.running ws)
              (a :: Pool.running (Pool.replace_nth i Pool.Idle ws)).
Proof.
  revert i; induction ws as [|x ws IH]; intros [|i] H; simpl in H;
    try discriminate.
  - inversion H; subst x. apply Permutation_refl.
  - destruct x as [|b]; simpl.
    + exact (IH i H).
    + transitivity (b :: a :: Pool.running (Pool.replace_nth i Pool.Idle ws));
        [constructor; exact (IH i H) | apply perm_swap].
Qed.

(** No step loses or duplicates a task. *)
Lemma step_tasks (e : Pool.event) (s s' : Pool.state) :
  Pool.step e s = Some s' -> Permutation (Pool.tasks s) (Pool.tasks s').
Proof.
  intros Hstep. unfold Pool.tasks. destruct e as [|i|i]; simpl in Hstep.
  - destruct (Pool.pending s) as [|a rest]; [discriminate|].
    assert (R : Pool.running (fst (Pool.adjust_thread_count s))
                = Pool.running (Pool.workers s)).
    { unfold Pool.adjust_thread_count.
      destruct (Pool.idle_semaphore s); [|reflexivity].
      destruct (_ <? _)%Z; [|reflexivity].
      simpl. rewrite running_app. apply app_nil_r. }
    destruct (Pool.adjust_thread_count s) as [ws sem].
    inversion Hstep; subst; clear Hstep. simpl in *. rewrite R.
    rewrite <- app_assoc. simpl.
    etransitivity; [apply Permutation_middle|].
    apply Permutation_app_head. apply Permutation_middle.
  - destruct (nth_error (Pool.workers s) i) as [[|b]|] eqn:N;
      try discriminate.
    destruct (Pool.queue s) as [|a rest]; [discriminate|].
    inversion Hstep; subst; clear Hstep. simpl.
    apply Permutation_app_head.
    etransitivity; [apply Permutation_middle|].
    apply Permutation_app_head.
    apply (Permutation_app_tail _ (running_take i a _ N)).
  - destruct (nth_error (Pool.workers s) i) as [[|b]|] eqn:N;
      try discriminate.
    inversion Hstep; subst; clear Hstep. simpl.
    do 2 apply Permutation_app_head.
    etransitivity;
      [apply (Permutation_app_tail _ (running_finish i b _ N))|].
    simpl. rewrite app_assoc. apply Permutation_cons_append.
Qed.

Lemma run_tasks (es : list Pool.event) (s s' : Pool.state) :
  Pool.run es s = Some s' -> Permutation (Pool.tasks s) (Pool.tasks s').
Proof.
  revert s; induction es as [|e es IH]; intros s Hrun; simpl in Hrun.
  - inversion Hrun; subst. apply Permutation_refl.
  - destruct (Pool.step e s) as [s1|] eqn:E; [|discriminate].
    transitivity (Pool.tasks s1); [exact (step_tasks e s s1 E) | auto].
Qed.

Lemma running_none (ws : list Pool.slot) :
  List.length (filter Pool.busy ws) = 0 -> Pool.running ws = [].
Proof.
  induction ws as [|[|a] ws IH]; simpl; [reflexivity | exact IH |].
  discriminate.
Qed.

(** When a schedule leaves the pool quiet, the completed tasks are the
    submitted ones, each once, in the order of completion. *)
Lemma run_completes (k : Z) (articles : list ArticleRef)
      (es : list Pool.event) (s : Pool.state) :
  Pool.run es (Pool.start k articles) = Some s ->
  Pool.quiet s = true ->
  Permutation articles (Pool.completed s).
Proof.
  intros Hrun Hq. apply run_tasks in Hrun.
  unfold Pool.tasks in Hrun. simpl in Hrun. rewrite app_nil_r in Hrun.
  unfold Pool.quiet in Hq.
  destruct (Pool.pending s); [|discriminate].
  destruct (Pool.queue s); [|discriminate].
  apply Nat.eqb_eq in Hq. unfold Pool.in_flight in Hq.
  now rewrite (running_none _ Hq) in Hrun.
Qed.

(** ** Claim on the worker pool *)

(** C9: with the pool built for the configured number of threads and one
    task submitted per discovered link, at every point of every schedule
    the number of fetch-and-extract tasks in flight is at most the
    configured number of threads. *)
Theorem pool_in_flight_bound
        (self : CNNNewsScraper) (articles : list ArticleRef) (k : Z)
        (es : list Pool.event) (s : Pool.state) :
  ThreadPoolExecutor (threads self) = Ret k ->
  Pool.run es (Pool.start k articles) = Some s ->
  (Z.of_nat (Pool.in_flight s) <= threads self)%Z.
Proof.
  unfold ThreadPoolExecutor. intros Hk Hrun.
  destruct (threads self <=? 0)%Z eqn:E; [discriminate|].
  inversion Hk; subst k. apply Z.leb_gt in E.
  destruct (run_bounded es _ s Hrun) as [Hb Hm].
  - unfold Pool.bounded. simpl. lia.
  - unfold Pool.bounded in Hb. simpl in Hm.
    pose proof (in_flight_workers s). lia.
Qed.

Lemma pool_in_flight_bound_witness :
  (Z.of_nat (Pool.in_flight Demo.crowded) <= threads Demo.pair)%Z.
Proof.
  apply (pool_in_flight_bound Demo.pair Demo.three 2 Demo.rush Demo.crowded).
  - reflexivity.
  - reflexivity.
Defined.

(** With two workers and three links, two tasks are in flight and the
    third waits in the queue. *)
Example demo_crowded :
  Pool.run Demo.rush (Pool.start 2 Demo.three) = Some Demo.crowded
  /\ Pool.in_flight Demo.crowded = 2
  /\ Pool.step (Pool.Take 0) Demo.crowded = None
  /\ Pool.step (Pool.Take 1) Demo.crowded = None
  /\ Pool.step (Pool.Take 2) Demo.crowded = None.
Proof. repeat split. Qed.

(** * Further properties *)

(** ** Link discovery *)

Lemma filter_absent_app (ks : list string) (k : string) (l : list string) :
  filter (absent (ks ++ [k])) l
  = filter (absent ks) (filter (fun y => negb (String.eqb y k)) l).
Proof.
  induction l as [|y l IH]; simpl; [reflexivity|].
  unfold absent at 1. rewrite existsb_app. simpl. rewrite orb_false_r.
  rewrite negb_orb. fold (absent ks y).
  destruct (String.eqb y k); simpl.
  - rewrite andb_false_r. exact IH.
  - rewrite andb_true_r. destruct (absent ks y); [now rewrite IH | exact IH].
Qed.

Lemma filter_absent_in (ks : list string) (k : string) (l : list string) :
  existsb (String.eqb k) ks = true ->
  filter (absent ks) (filter (fun y => negb (String.eqb y k)) l)
  = filter (absent ks) l.
Proof.
  intros H. induction l as [|y l IH]; simpl; [reflexivity|].
  destruct (String.eqb y k) eqn:E; simpl.
  - apply String.eqb_eq in E; subst y. unfold absent at 2.
    rewrite H. exact IH.
  - destruct (absent ks y); [now rewrite IH | exact IH].
Qed.

(** The keys of a dictionary extended by a comprehension: the old keys,
    then the new ones by first appearance. *)
Lemma keys_extend {A : Type} (key : A -> string) (l : list A)
      (d : list (string * A)) :
  Dict.keys (Dict.extend key l d)
  = Dict.keys d ++ filter (absent (Dict.keys d)) (firsts (map key l)).
Proof.
  revert d; induction l as [|x l IH]; intros d; simpl.
  - now rewrite app_nil_r.
  - change (fold_left (fun d0 x0 => Dict.set (key x0) x0 d0) l
                      (Dict.set (key x) x d))
      with (Dict.extend key l (Dict.set (key x) x d)).
    rewrite IH, DictFacts.keys_set.
    assert (Hx : absent (Dict.keys d) (key x)
                 = negb (existsb (String.eqb (key x)) (Dict.keys d)))
      by reflexivity.
    destruct (existsb (String.eqb (key x)) (Dict.keys d)) eqn:E;
      cbn [filter]; rewrite Hx; cbn [negb].
    + now rewrite filter_absent_in.
    + rewrite <- app_assoc. cbn [app]. now rewrite filter_absent_app.
Qed.

Lemma keyed_values {A : Type} (key : A -> string) (d : list (string * A)) :
  Dict.keyed key d -> map key (Dict.values d) = Dict.keys d.
Proof.
  unfold Dict.keyed, Dict.values, Dict.keys.
  induction 1 as [|[k v] d Hk _ IH]; simpl; [reflexivity|].
  simpl in Hk. now rewrite IH, Hk.
Qed.

Lemma unique_urls (l : list ArticleRef) :
  map ref_url (unique l) = Dict.keys (Dict.comprehension ref_url l).
Proof.
  unfold unique, Dict.comprehension. apply keyed_values.
  apply (DictFacts.extend_inv ref_url l []); constructor.
Qed.

(** X3: link extraction returns no URL twice. *)
Theorem parse_main_page_distinct
        (w : World) (self : CNNNewsScraper) (html : string)
        (refs : list ArticleRef) :
  parse_main_page w self html = Ret refs ->
  NoDup (map ref_url refs).
Proof.
  intros Hp. apply parse_main_page_Ret in Hp as (soup & _ & ->).
  unfold parse_soup. rewrite unique_urls. unfold Dict.comprehension.
  apply (DictFacts.extend_inv ref_url _ []); constructor.
Qed.

Lemma parse_main_page_distinct_witness :
  NoDup (map ref_url [Demo.foo_ref; Demo.gone_ref]).
Proof.
  apply (parse_main_page_distinct
           Demo.site Demo.scraper Demo.landing_html).
  vm_compute. reflexivity.
Defined.

(** X4: the references come in the order in which their URLs first appear
    among the anchors that the loop keeps. *)
Theorem parse_main_page_order
        (w : World) (self : CNNNewsScraper) (html : string)
        (soup : list Soup.node) :
  html_parser w html = Some soup ->
  exists refs,
    parse_main_page w self html = Ret refs
    /\ map ref_url refs
       = firsts (map ref_url (omap (candidate self) (anchors soup))).
Proof.
  intros Hs. exists (parse_soup self soup).
  split; [rewrite parse_main_page_value, Hs; reflexivity|].
  unfold parse_soup.
  rewrite unique_urls, scan_omap. unfold Dict.comprehension.
  rewrite keys_extend. simpl.
  induction (firsts _) as [|y l IH]; simpl; [reflexivity | now rewrite IH].
Qed.

Lemma parse_main_page_order_witness :
  exists refs,
    parse_main_page Demo.site Demo.scraper Demo.landing_html = Ret refs
    /\ map ref_url refs
       = firsts (map ref_url
                     (omap (candidate Demo.scraper)
                           (anchors Demo.landing_soup))).
Proof.
  apply (parse_main_page_order Demo.site Demo.scraper Demo.landing_html).
  reflexivity.
Defined.

(** The references appended for [u] are those of the anchors with target
    [u] that pass the filters, in order. *)
Lemma with_url_keeping (self : CNNNewsScraper) (u : string)
      (links : list Soup.node) :
  with_url u (omap (candidate self) links)
  = map (fun link => ref_of link u) (keeping self u links).
Proof.
  unfold keeping, sharing, with_url, ref_of.
  induction links as [|link links IH]; [reflexivity|].
  simpl omap. simpl filter. rewrite candidate_passes.
  destruct (target self link) as [t|]; simpl.
  - destruct (passes link) eqn:P; simpl.
    + destruct (String.eqb t u) eqn:E; simpl; rewrite ?P; simpl.
      * apply String.eqb_eq in E; subst t. now rewrite IH.
      * exact IH.
    + destruct (String.eqb t u); simpl; rewrite ?P; exact IH.
  - destruct (passes link); exact IH.
Qed.

(** X1: for every URL, link extraction returns the reference of the last
    anchor with that normalized target among those that pass the filters,
    and no reference when no such anchor passes them: an anchor that
    fails a filter never takes part in the choice of the title. *)
Theorem parse_main_page_last_passing
        (w : World) (self : CNNNewsScraper) (html u : string)
        (soup : list Soup.node) :
  html_parser w html = Some soup ->
  exists refs,
    parse_main_page w self html = Ret refs
    /\ with_url u refs
       = match last_opt (keeping self u (anchors soup)) with
         | Some link => [ref_of link u]
         | None => []
         end.
Proof.
  intros Hs. exists (parse_soup self soup).
  split; [rewrite parse_main_page_value, Hs; reflexivity|].
  unfold parse_soup.
  rewrite unique_with_url, scan_omap, with_url_keeping, last_opt_map.
  now destruct (last_opt _).
Qed.

Lemma parse_main_page_last_passing_witness :
  exists refs,
    parse_main_page Demo.site Demo.scraper Demo.landing_html = Ret refs
    /\ with_url Demo.foo_url refs
       = match last_opt (keeping Demo.scraper Demo.foo_url
                                 (anchors Demo.landing_soup)) with
         | Some link => [ref_of link Demo.foo_url]
         | None => []
         end.
Proof.
  apply (parse_main_page_last_passing
           Demo.site Demo.scraper Demo.landing_html Demo.foo_url).
  reflexivity.
Defined.

Lemma with_url_In (u : string) (l : list ArticleRef) (r : ArticleRef) :
  In r (with_url u l) <-> In r l /\ ref_url r = u.
Proof.
  unfold with_url. rewrite filter_In.
  split; intros [H E]; (split; [exact H|]); now apply String.eqb_eq.
Qed.

Lemma unique_keeps_url (l : list ArticleRef) (r : ArticleRef) :
  In r l -> exists x, In x (unique l) /\ ref_url x = ref_url r.
Proof.
  intros H.
  assert (Hw : In r (with_url (ref_url r) l)) by now apply with_url_In.
  destruct (last_opt_length (with_url (ref_url r) l)) as [x Hx].
  { destruct (with_url (ref_url r) l); [destruct Hw | simpl; lia]. }
  pose proof (unique_with_url (ref_url r) l) as Hu. rewrite Hx in Hu.
  exists x. apply with_url_In. rewrite Hu. now left.
Qed.

(** X2: the URLs that link extraction returns are exactly the normalized
    targets of the anchors that pass the three filters. *)
Theorem parse_main_page_urls
        (w : World) (self : CNNNewsScraper) (html u : string)
        (soup : list Soup.node) :
  html_parser w html = Some soup ->
  exists refs,
    parse_main_page w self html = Ret refs
    /\ (In u (map ref_url refs)
        <-> exists link,
            In link (anchors soup)
            /\ passes link = true
            /\ target self link = Some u).
Proof.
  intros Hs. exists (parse_soup self soup).
  split; [rewrite parse_main_page_value, Hs; reflexivity|].
  unfold parse_soup. rewrite scan_omap. split.
  - intros H. apply in_map_iff in H as (r & <- & H).
    apply unique_In, In_omap in H as (link & Hin & Hc).
    exists link. split; [exact Hin|].
    rewrite candidate_passes in Hc.
    destruct (passes link); [|discriminate]. split; [reflexivity|].
    destruct (target self link); simpl in Hc; [|discriminate].
    now inversion Hc.
  - intros (link & Hin & Hp & Ht).
    assert (Hc : candidate self link = Some (ref_of link u)).
    { rewrite candidate_passes, Hp, Ht. reflexivity. }
    destruct (unique_keeps_url (omap (candidate self) (anchors soup))
                               (ref_of link u))
      as (x & Hx & Hu); [apply In_omap; eauto|].
    apply in_map_iff. exists x. split; [exact Hu | exact Hx].
Qed.

Lemma parse_main_page_urls_witness :
  exists refs,
    parse_main_page Demo.site Demo.scraper Demo.landing_html = Ret refs
    /\ (In Demo.gone_url (map ref_url refs)
        <-> exists link,
            In link (anchors Demo.landing_soup)
            /\ passes link = true
            /\ target Demo.scraper link = Some Demo.gone_url).
Proof.
  apply (parse_main_page_urls
           Demo.site Demo.scraper Demo.landing_html Demo.gone_url).
  reflexivity.
Defined.

Lemma concat_cons (x : string) (l : list string) :
  String.concat "" (x :: l) = (x ++ String.concat "" l)%string.
Proof.
  destruct l; simpl; [now rewrite PyStrFacts.app_empty_r | reflexivity].
Qed.

Lemma first_char_app (a b : string) :
  PyStr.first_char (a ++ b)
  = match a with
    | EmptyString => PyStr.first_char b
    | String _ _ => PyStr.first_char a
    end.
Proof. now destruct a. Qed.

Lemma last_char_app (a b : string) :
  PyStr.last_char (a ++ b)
  = match b with
    | EmptyString => PyStr.last_char a
    | String _ _ => PyStr.last_char b
    end.
Proof.
  induction a as [|c a IH]; simpl.
  - now destruct b.
  - destruct (a ++ b)%string eqn:E.
    + destruct a; [|discriminate]. simpl in E. now subst b.
    + rewrite IH. destruct b; [|reflexivity].
      rewrite PyStrFacts.app_empty_r in E. now subst a.
Qed.

(** A concatenation of trimmed strings has no white space at its ends. *)
Lemma concat_trimmed (l : list string) :
  Forall (fun e => PyStr.blank (PyStr.first_char e) = false
                   /\ PyStr.blank (PyStr.last_char e) = false) l ->
  PyStr.blank (PyStr.first_char (String.concat "" l)) = false
  /\ PyStr.blank (PyStr.last_char (String.concat "" l)) = false.
Proof.
  induction 1 as [|x l [Hf Hl] _ [IHf IHl]]; [now split|].
  rewrite concat_cons, first_char_app, last_char_app. split.
  - now destruct x.
  - now destruct (String.concat "" l).
Qed.

(** [get_text(strip=True)] has no white space at its ends. *)
Lemma get_text_strip_trimmed (n : Soup.node) :
  PyStr.blank (PyStr.first_char (Soup.get_text_strip n)) = false
  /\ PyStr.blank (PyStr.last_char (Soup.get_text_strip n)) = false.
Proof.
  unfold Soup.get_text_strip. apply concat_trimmed.
  apply Forall_forall. intros e He.
  apply filter_In in He as [He _].
  apply in_map_iff in He as (s & <- & _).
  apply PyStrFacts.strip_trimmed.
Qed.

(** X5: every reference that link extraction returns has a title, and
    the title has no white space at either end. *)
Theorem parse_main_page_titles
        (w : World) (self : CNNNewsScraper) (html : string)
        (refs : list ArticleRef) (r : ArticleRef) :
  parse_main_page w self html = Ret refs ->
  In r refs ->
  ref_title r <> ""
  /\ PyStr.blank (PyStr.first_char (ref_title r)) = false
  /\ PyStr.blank (PyStr.last_char (ref_title r)) = false.
Proof.
  intros Hp H. apply parse_main_page_Ret in Hp as (soup & _ & ->).
  apply parse_soup_In in H as (link & _ & Hc).
  rewrite candidate_passes in Hc.
  destruct (passes link) eqn:P; [|discriminate].
  destruct (target self link); simpl in Hc; [|discriminate].
  inversion Hc; subst r; clear Hc. simpl.
  unfold passes in P. apply andb_true_iff in P as [_ P].
  split; [now apply PyStrFacts.truthy_true|].
  apply get_text_strip_trimmed.
Qed.

Lemma parse_main_page_titles_witness :
  ref_title Demo.foo_ref <> ""
  /\ PyStr.blank (PyStr.first_char (ref_title Demo.foo_ref)) = false
  /\ PyStr.blank (PyStr.last_char (ref_title Demo.foo_ref)) = false.
Proof.
  apply (parse_main_page_titles
           Demo.site Demo.scraper Demo.landing_html
           [Demo.foo_ref; Demo.gone_ref] Demo.foo_ref).
  - vm_compute. reflexivity.
  - left. reflexivity.
Defined.

(** X6: every returned URL is either the base URL followed by a target
    that starts with a slash, or a target that does not start with a
    slash, returned as it is, also when it is a relative path; so with a
    base URL that is not empty and does not start with a slash, no
    returned URL starts with a slash. *)
Theorem parse_main_page_absolute
        (w : World) (self : CNNNewsScraper) (html : string)
        (refs : list ArticleRef) (r : ArticleRef) :
  parse_main_page w self html = Ret refs ->
  In r refs ->
  (exists soup link h,
      html_parser w html = Some soup
      /\ In link (anchors soup)
      /\ link_href link = Some h
      /\ ((PyStr.startswith "/" h = true
           /\ ref_url r = (base_url self ++ h)%string)
          \/ (PyStr.startswith "/" h = false /\ ref_url r = h)))
  /\ (base_url self <> "" ->
      PyStr.startswith "/" (base_url self) = false ->
      PyStr.startswith "/" (ref_url r) = false).
Proof.
  intros Hp H. apply parse_main_page_Ret in Hp as (soup & Hs & ->).
  apply parse_soup_In in H as (link & Hin & Hc).
  apply candidate_Some in Hc as (_ & _ & h & Hh & _ & Hu).
  unfold absolute in Hu. split.
  - exists soup, link, h. repeat split; auto.
    destruct (PyStr.startswith "/" h); [left | right]; now split.
  - intros Hne Hbase. rewrite Hu.
    destruct (PyStr.startswith "/" h) eqn:E; [|exact E].
    destruct (base_url self) as [|c b]; [congruence|]. exact Hbase.
Qed.

Lemma parse_main_page_absolute_witness :
  (exists soup link h,
      html_parser Demo.site Demo.landing_html = Some soup
      /\ In link (anchors soup)
      /\ link_href link = Some h
      /\ ((PyStr.startswith "/" h = true
           /\ ref_url Demo.gone_ref
              = (base_url Demo.scraper ++ h)%string)
          \/ (PyStr.startswith "/" h = false
              /\ ref_url Demo.gone_ref = h)))
  /\ (base_url Demo.scraper <> "" ->
      PyStr.startswith "/" (base_url Demo.scraper) = false ->
      PyStr.startswith "/" (ref_url Demo.gone_ref) = false).
Proof.
  apply (parse_main_page_absolute
           Demo.site Demo.scraper Demo.landing_html
           [Demo.foo_ref; Demo.gone_ref] Demo.gone_ref).
  - vm_compute. reflexivity.
  - right. left. reflexivity.
Defined.

(** A relative target without a leading slash is returned as it is. *)
Example demo_relative :
  parse_soup Demo.scraper
    [Soup.Tag "a" [("href", "news/2024/03/15/x.html")] []
              [Soup.Text "Story"]]
  = [{| ref_title := "Story"; ref_url := "news/2024/03/15/x.html" |}].
Proof. vm_compute. reflexivity. Qed.

Lemma set_absent {A : Type} (k : string) (v : A) (d : list (string * A)) :
  ~ In k (Dict.keys d) -> Dict.set k v d = d ++ [(k, v)].
Proof.
  unfold Dict.keys. induction d as [|[k' v'] d IH]; simpl; intros H.
  - reflexivity.
  - destruct (String.eqb k' k) eqn:E.
    + apply String.eqb_eq in E. exfalso. apply H. now left.
    + rewrite IH; [reflexivity|]. intros Hin. apply H. now right.
Qed.

Lemma extend_distinct {A : Type} (key : A -> string) (l : list A)
      (d : list (string * A)) :
  NoDup (Dict.keys d ++ map key l) ->
  Dict.extend key l d = d ++ map (fun x => (key x, x)) l.
Proof.
  revert d; induction l as [|x l IH]; intros d H; simpl.
  - now rewrite app_nil_r.
  - change (fold_left (fun d0 x0 => Dict.set (key x0) x0 d0) l
                      (Dict.set (key x) x d))
      with (Dict.extend key l (Dict.set (key x) x d)).
    simpl in H. pose proof (NoDup_remove_2 _ _ _ H) as Hx.
    rewrite set_absent by (intros Hin; apply Hx, in_or_app; now left).
    rewrite IH.
    + now rewrite <- app_assoc.
    + unfold Dict.keys in *. rewrite map_app, <- app_assoc. exact H.
Qed.

(** X7: deduplication leaves a list whose URLs are distinct as it is, and
    so deduplicating twice changes nothing more. *)
Theorem unique_fixed (l : list ArticleRef) :
  (NoDup (map ref_url l) -> unique l = l)
  /\ unique (unique l) = unique l.
Proof.
  assert (Hfix : forall l', NoDup (map ref_url l') -> unique l' = l').
  { intros l' H. unfold unique, Dict.comprehension.
    rewrite extend_distinct by exact H.
    unfold Dict.values. simpl. rewrite map_map. simpl. apply map_id. }
  split; [apply Hfix|]. apply Hfix.
  rewrite unique_urls. unfold Dict.comprehension.
  apply (DictFacts.extend_inv ref_url l []); constructor.
Qed.


(** ** The crawl *)

(** A worker that returns had a page the parser accepted, or none. *)
Lemma fetch_article_accepted (w : World) (self : CNNNewsScraper)
      (ref : ArticleRef) (o : option Article) :
  fetch_article w self ref = Ret o -> rejected w self ref = false.
Proof.
  rewrite fetch_article_value. unfold rejected.
  destruct (http_get w (user_agent self) (ref_url ref)) as [page|];
    [|reflexivity].
  now destruct (html_parser w page).
Qed.

(** When the crawl returns, the parser rejected none of the pages. *)
Lemma crawl_accepted (w : World) (self : CNNNewsScraper) (html : string)
      (links : list ArticleRef) (results : list Article) :
  http_get w (user_agent self) (base_url self) = Some html ->
  html <> "" ->
  parse_main_page w self html = Ret links ->
  get_main_page_articles w self = Ret results ->
  forall ref, In ref links -> rejected w self ref = false.
Proof.
  intros Hget Hhtml Hp Hres ref Hin.
  rewrite (crawl_parsed w self html links Hget Hhtml Hp) in Hres.
  destruct links as [|a l]; [destruct Hin|].
  destruct (threads self <=? 0)%Z; [discriminate|].
  apply gather_Ret in Hres as [Hall _].
  apply (Permutation_Forall
           (Permutation_sym (as_completed_perm w _))) in Hall.
  rewrite Forall_forall in Hall.
  destruct (Hall (ref, fetch_article w self ref)) as [o Ho].
  { apply submit_all_In. now exists ref. }
  exact (fetch_article_accepted w self ref o Ho).
Qed.

Lemma crawl_cases (w : World) (self : CNNNewsScraper)
      (results : list Article) :
  get_main_page_articles w self = Ret results ->
  results = []
  \/ exists html links,
      http_get w (user_agent self) (base_url self) = Some html
      /\ html <> ""
      /\ parse_main_page w self html = Ret links
      /\ Permutation results (omap (produced w self) links).
Proof.
  intros Hres. pose proof Hres as H0.
  unfold get_main_page_articles in H0.
  rewrite fetch_main_page_value in H0. cbn [bind] in H0.
  destruct (http_get w (user_agent self) (base_url self)) as [html|] eqn:G;
    [|left; now inversion H0].
  destruct (PyStr.truthy html) eqn:T; [|left; now inversion H0].
  apply PyStrFacts.truthy_true in T.
  destruct (parse_main_page w self html) as [links|e] eqn:P;
    [|discriminate H0].
  right. exists html, links. repeat split; auto.
  exact (crawl_returned w self html links results G T P Hres).
Qed.

(** X8: every article that the crawl returns was extracted from the
    fetched page of a link discovered on the main page, and carries the
    URL of that link. *)
Theorem crawl_provenance
        (w : World) (self : CNNNewsScraper) (results : list Article)
        (a : Article) :
  get_main_page_articles w self = Ret results ->
  In a results ->
  exists html links ref page,
    http_get w (user_agent self) (base_url self) = Some html
    /\ parse_main_page w self html = Ret links
    /\ In ref links
    /\ http_get w (user_agent self) (ref_url ref) = Some page
    /\ extract w ref page = Ret a
    /\ url a = ref_url ref.
Proof.
  intros Hres Ha.
  destruct (crawl_cases w self results Hres)
    as [->|(html & links & Hget & _ & Hp & Hperm)]; [destruct Ha|].
  apply (Permutation_in _ Hperm) in Ha.
  apply In_omap in Ha as (ref & Hin & Hprod).
  apply produced_url in Hprod as (Hu & page & Hpage & Hex).
  exists html, links, ref, page. repeat split; auto.
Qed.

Lemma crawl_provenance_witness :
  exists html links ref page,
    http_get Demo.site (user_agent Demo.scraper) (base_url Demo.scraper)
    = Some html
    /\ parse_main_page Demo.site Demo.scraper html = Ret links
    /\ In ref links
    /\ http_get Demo.site (user_agent Demo.scraper) (ref_url ref)
       = Some page
    /\ extract Demo.site ref page = Ret Demo.foo_article
    /\ url Demo.foo_article = ref_url ref.
Proof.
  apply (crawl_provenance Demo.site Demo.scraper [Demo.foo_article]).
  - vm_compute. reflexivity.
  - left. reflexivity.
Defined.

Lemma produced_distinct (w : World) (self : CNNNewsScraper)
      (links : list ArticleRef) :
  NoDup (map ref_url links) ->
  NoDup (map url (omap (produced w self) links)).
Proof.
  induction links as [|ref links IH]; simpl; intros H; [constructor|].
  inversion H as [|? ? Hnot Hrest]; subst.
  destruct (produced w self ref) as [a|] eqn:P; [|exact (IH Hrest)].
  simpl. constructor; [|exact (IH Hrest)].
  intros Hin. apply Hnot.
  apply in_map_iff in Hin as (b & Hb & Hin).
  apply In_omap in Hin as (ref' & Hin' & P').
  apply produced_url in P as [Hu _]. apply produced_url in P' as [Hu' _].
  apply in_map_iff. exists ref'. split; [congruence | exact Hin'].
Qed.

(** X9: the crawl returns at most one article per URL. *)
Theorem crawl_distinct
        (w : World) (self : CNNNewsScraper) (results : list Article) :
  get_main_page_articles w self = Ret results ->
  NoDup (map url results).
Proof.
  intros Hres.
  destruct (crawl_cases w self results Hres)
    as [->|(html & links & _ & _ & Hp & Hperm)]; [constructor|].
  apply (Permutation_NoDup (Permutation_map url (Permutation_sym Hperm))).
  apply produced_distinct.
  apply parse_main_page_Ret in Hp as (soup & _ & ->).
  unfold parse_soup. rewrite unique_urls. unfold Dict.comprehension.
  apply (DictFacts.extend_inv ref_url _ []); constructor.
Qed.

Lemma crawl_distinct_witness : NoDup (map url [Demo.foo_article]).
Proof.
  apply (crawl_distinct Demo.site Demo.scraper). vm_compute. reflexivity.
Defined.

Lemma produced_count (w : World) (self : CNNNewsScraper)
      (links : list ArticleRef) :
  (forall ref, In ref links -> rejected w self ref = false) ->
  List.length (omap (produced w self) links)
  = List.length (filter (fetched w self) links).
Proof.
  induction links as [|ref links IH]; intros Hacc; [reflexivity|].
  cbn [omap filter]. unfold fetched at 1.
  destruct (http_get w (user_agent self) (ref_url ref)) as [page|] eqn:G.
  - destruct (produced_fetched w self ref page G (Hacc ref (or_introl eq_refl)))
      as [a ->].
    simpl. rewrite IH; [reflexivity|]. intros r Hr. apply Hacc. now right.
  - unfold produced. rewrite G. apply IH.
    intros r Hr. apply Hacc. now right.
Qed.

(** X10: on a main page with markup, the crawl returns as many articles
    as there are discovered links whose page could be fetched. *)
Theorem crawl_count
        (w : World) (self : CNNNewsScraper) (html : string)
        (results : list Article) :
  get_main_page_articles w self = Ret results ->
  http_get w (user_agent self) (base_url self) = Some html ->
  html <> "" ->
  exists links,
    parse_main_page w self html = Ret links
    /\ List.length results
       = List.length (filter (fetched w self) links).
Proof.
  intros Hres Hget Hhtml.
  destruct (crawl_cases w self results Hres)
    as [->|(html' & links & Hget' & _ & Hp & Hperm)].
  - pose proof Hres as H0. unfold get_main_page_articles in H0.
    rewrite fetch_main_page_value, Hget in H0. cbn [bind] in H0.
    pose proof Hhtml as T. apply PyStrFacts.truthy_true in T.
    rewrite T in H0.
    destruct (parse_main_page w self html) as [links|e] eqn:P;
      [|discriminate H0].
    exists links. split; [reflexivity|].
    rewrite <- (produced_count w self links
                  (crawl_accepted w self html links [] Hget Hhtml P Hres)).
    now rewrite <- (Permutation_length
                      (crawl_returned w self html links [] Hget Hhtml P Hres)).
  - rewrite Hget in Hget'. inversion Hget'; subst html'.
    exists links. split; [exact Hp|].
    rewrite (Permutation_length Hperm).
    apply produced_count.
    exact (crawl_accepted w self html links results Hget Hhtml Hp Hres).
Qed.

Lemma crawl_count_witness :
  exists links,
    parse_main_page Demo.site Demo.scraper Demo.landing_html = Ret links
    /\ List.length [Demo.foo_article]
       = List.length (filter (fetched Demo.site Demo.scraper) links).
Proof.
  apply (crawl_count Demo.site Demo.scraper Demo.landing_html).
  - vm_compute. reflexivity.
  - reflexivity.
  - discriminate.
Defined.


(** ** Article extraction *)

Lemma all_space_app (a b : string) :
  all_space (a ++ b) = all_space a && all_space b.
Proof.
  induction a as [|c a IH]; simpl; [reflexivity|].
  now rewrite IH, andb_assoc.
Qed.

Lemma all_space_concat (l : list string) :
  Forall (fun s => all_space s = true) l ->
  all_space (String.concat "" l) = true.
Proof.
  induction 1 as [|x l Hx _ IH]; [reflexivity|].
  now rewrite concat_cons, all_space_app, Hx, IH.
Qed.

(** White space alone strips to nothing. *)
Lemma strip_all_space (s : string) :
  all_space s = true -> PyStr.strip s = "".
Proof.
  unfold PyStr.strip. intros H.
  assert (L : PyStr.lstrip s = "").
  { induction s as [|c s IH]; [reflexivity|]. simpl in *.
    apply andb_true_iff in H as [Hc Hs]. rewrite Hc. exact (IH Hs). }
  now rewrite L.
Qed.

(** X12: when the first heading of the page holds white space only, or
    nothing, the title of the article is the empty string: the title of
    the link is a fallback for a missing heading, not for an empty one. *)
Theorem fetch_article_blank_heading
        (w : World) (self : CNNNewsScraper) (ref : ArticleRef)
        (a : Article) (page : string) (soup : list Soup.node)
        (h : Soup.node) :
  fetch_article w self ref = Ret (Some a) ->
  http_get w (user_agent self) (ref_url ref) = Some page ->
  html_parser w page = Some soup ->
  Soup.find "h1" Soup.any soup = Some h ->
  Forall (fun s => all_space s = true) (Soup.strings h) ->
  title a = "".
Proof.
  intros Hf Hget Hs Hh Hblank.
  apply fetch_article_Some in Hf as (page' & soup' & Hget' & Hs' & ->).
  rewrite Hget in Hget'. inversion Hget'; subst page'.
  rewrite Hs in Hs'. inversion Hs'; subst soup'.
  cbn [article_of title]. unfold extract_title. rewrite Hh.
  apply strip_all_space. unfold Soup.text. now apply all_space_concat.
Qed.

Lemma fetch_article_blank_heading_witness :
  title {| title := ""; date := no_date; content := "Body.";
           url := Demo.foo_url |} = "".
Proof.
  apply (fetch_article_blank_heading
           untitled Demo.scraper Demo.foo_ref _
           "<h1>  <b> </b></h1><p>Body.</p>" blank_heading
           (Soup.Tag "h1" [] []
              [Soup.Text "  "; Soup.Tag "b" [] [] [Soup.Text " "]])).
  - vm_compute. reflexivity.
  - reflexivity.
  - reflexivity.
  - reflexivity.
  - repeat constructor.
Defined.

(** The link of that page had a title of its own. *)
Example demo_blank_heading :
  ref_title Demo.foo_ref = "Foo Bar, again"
  /\ fetch_article untitled Demo.scraper Demo.foo_ref
     = Ret (Some {| title := ""; date := no_date; content := "Body.";
                    url := Demo.foo_url |}).
Proof. split; vm_compute; reflexivity. Qed.

(** X16: the date of a returned article is the sentinel when its page is
    not stamped.  When the page is stamped with a date whose fields other
    than the year have at most two digits, the date has the layout
    [YYYY-MM-DD HH:MM:SS], nineteen characters with the separators in
    their places, if the year has four digits, and is shorter than
    nineteen characters if the year is below 1000, since the year is not
    padded. *)
Theorem fetch_article_date_layout
        (w : World) (self : CNNNewsScraper) (ref : ArticleRef)
        (a : Article) :
  fetch_article w self ref = Ret (Some a) ->
  exists page soup,
    http_get w (user_agent self) (ref_url ref) = Some page
    /\ html_parser w page = Some soup
    /\ match stamped w soup with
       | None => date a = no_date
       | Some dt =>
           fits dt ->
           (10 ^ 3 <= year dt -> year dt < 10 ^ 4 ->
            String.length (date a) = 19
            /\ String.get 4 (date a) = Some "-"%char
            /\ String.get 7 (date a) = Some "-"%char
            /\ String.get 10 (date a) = Some " "%char
            /\ String.get 13 (date a) = Some ":"%char
            /\ String.get 16 (date a) = Some ":"%char)
           /\ (year dt < 10 ^ 3 -> String.length (date a) < 19)
       end.
Proof.
  intros Hf.
  apply fetch_article_Some in Hf as (page & soup & Hget & Hs & ->).
  exists page, soup. split; [exact Hget|]. split; [exact Hs|].
  cbn [article_of date]. unfold date_of.
  destruct (stamped w soup) as [dt|]; [|reflexivity].
  intros Hfits. split.
  - intros Hlo Hhi. rewrite (strftime_layout dt Hlo Hhi Hfits).
    split; [apply iso_length|]. repeat split; reflexivity.
  - intros Hy. now apply strftime_short.
Qed.

Lemma fetch_article_date_layout_witness :
  exists page soup,
    http_get Demo.site (user_agent Demo.scraper) (ref_url Demo.foo_ref)
    = Some page
    /\ html_parser Demo.site page = Some soup
    /\ match stamped Demo.site soup with
       | None => date Demo.foo_article = no_date
       | Some dt =>
           fits dt ->
           (10 ^ 3 <= year dt -> year dt < 10 ^ 4 ->
            String.length (date Demo.foo_article) = 19
            /\ String.get 4 (date Demo.foo_article) = Some "-"%char
            /\ String.get 7 (date Demo.foo_article) = Some "-"%char
            /\ String.get 10 (date Demo.foo_article) = Some " "%char
            /\ String.get 13 (date Demo.foo_article) = Some ":"%char
            /\ String.get 16 (date Demo.foo_article) = Some ":"%char)
           /\ (year dt < 10 ^ 3 ->
               String.length (date Demo.foo_article) < 19)
       end.
Proof.
  apply (fetch_article_date_layout Demo.site Demo.scraper Demo.foo_ref).
  vm_compute. reflexivity.
Defined.

(** The date of the year 0099 has seventeen characters. *)
Example demo_ancient :
  date_text Demo.old_soup = Some Demo.old_stamp
  /\ fetch_article Demo.ancient Demo.scraper Demo.foo_ref
     = Ret (Some Demo.old_article).
Proof. split; vm_compute; reflexivity. Qed.

(** ** The command line *)

Lemma substring_all (n : nat) (s : string) :
  String.length s <= n -> substring 0 n s = s.
Proof.
  revert n; induction s as [|c s IH]; intros [|n] H; simpl in *;
    try reflexivity; try lia.
  rewrite IH; [reflexivity | lia].
Qed.

Lemma substring_length (n : nat) (s : string) :
  String.length (substring 0 n s) <= n.
Proof.
  revert s; induction n as [|n IH]; intros [|c s]; simpl; try lia.
  specialize (IH s). lia.
Qed.

(** The content line under a preview of [S k] characters. *)
Lemma content_line_cut (k : nat) (a : Article) :
  content_line (Some (S k)) a
  = ("Content: " ++ substring 0 (S k) (content a) ++ "...")%string
  /\ (String.length (content a) <= S k ->
      content_line (Some (S k)) a
      = ("Content: " ++ content a ++ "...")%string)
  /\ String.length (content_line (Some (S k)) a) <= S k + 12.
Proof.
  assert (E : content_line (Some (S k)) a
              = ("Content: " ++ substring 0 (S k) (content a) ++ "...")%string)
    by reflexivity.
  split; [exact E|]. split.
  - intros H. rewrite E. now rewrite (substring_all (S k) _ H).
  - rewrite E, !string_length_app.
    pose proof (substring_length (S k) (content a)).
    change (String.length "Content: ") with 9.
    change (String.length "...") with 3. lia.
Qed.

(** X13: in console mode with a preview of 300, 500 or 1000 characters,
    the content printed is the first characters of the body followed by
    three dots, also when the body is short enough to be printed whole;
    the line is at most twelve characters longer than the preview.  With
    the preview [all] the body is printed whole and no dots are added. *)
Theorem console_preview (p : preview) (a : Article) :
  match preview_length p with
  | Some n =>
      content_line (Some n) a
      = ("Content: " ++ substring 0 n (content a) ++ "...")%string
      /\ (String.length (content a) <= n ->
          content_line (Some n) a
          = ("Content: " ++ content a ++ "...")%string)
      /\ String.length (content_line (Some n) a) <= n + 12
  | None => content_line None a = ("Content: " ++ content a)%string
  end.
Proof.
  destruct p; cbv [preview_length].
  - exact (content_line_cut 299 a).
  - exact (content_line_cut 499 a).
  - exact (content_line_cut 999 a).
  - reflexivity.
Qed.

Lemma output_file_named (f : option string) : output_file f <> "".
Proof.
  unfold output_file. destruct f as [s|]; [|discriminate].
  destruct (PyStr.truthy s) eqn:T; [|discriminate].
  now apply PyStrFacts.truthy_true.
Qed.

(** X14: a run whose crawl ends without an article, or raises, starts no
    output step: nothing is printed for an article, no file is opened,
    and the status is 1.  A run with articles in JSON mode opens one
    file, named by the file option, or [cnn_articles.json] when the
    option is missing or empty, so never under an empty name, and dumps
    into it exactly the articles of the crawl, in their order. *)
Theorem main_report (w : World) (args : Args) :
  match get_main_page_articles w (scraper_of args) with
  | Ret (a :: l) =>
      handed (main w args) = Some (report_of args (a :: l))
      /\ (arg_output args = Json ->
          report_of args (a :: l)
          = Saved (output_file (arg_file args)) (a :: l)
          /\ output_file (arg_file args) <> ""
          /\ (forall s,
                 arg_file args = Some s -> s <> "" ->
                 output_file (arg_file args) = s)
          /\ (arg_file args = None \/ arg_file args = Some "" ->
              output_file (arg_file args) = "cnn_articles.json"))
  | _ => handed (main w args) = None /\ status (main w args) = 1%Z
  end.
Proof.
  unfold main.
  destruct (get_main_page_articles w (scraper_of args)) as [[|a l]|e];
    try (split; reflexivity).
  split; [reflexivity|]. intros Hj. unfold report_of. rewrite Hj.
  split; [reflexivity|]. split; [apply output_file_named|]. split.
  - intros s -> Hs. unfold output_file.
    apply PyStrFacts.truthy_true in Hs. now rewrite Hs.
  - intros [->| ->]; reflexivity.
Qed.

(** On the small site the one article is printed by four calls. *)
Example demo_report :
  handed (main Demo.site Demo.args)
  = Some (Printed
            ["Title: Foo Bar"; "Date: 2024-03-15 09:05:00";
             ("Content: First paragraph." ++ PyStr.nl ++ " Second....")%string;
             ("URL: " ++ Demo.foo_url ++ PyStr.nl)%string]).
Proof. vm_compute. reflexivity. Qed.

(** ** The worker pool *)

(** X15: once the pool is built, the tasks can all be run to the end, and
    whenever a schedule leaves the pool with nothing to submit, nothing
    queued and nothing running, the completed tasks are the submitted
    links, each exactly once: no link is fetched twice or forgotten. *)
Theorem pool_conserves_tasks
        (self : CNNNewsScraper) (articles : list ArticleRef) (k : Z) :
  ThreadPoolExecutor (threads self) = Ret k ->
  (exists es s,
      Pool.run es (Pool.start k articles) = Some s
      /\ Pool.quiet s = true)
  /\ forall es s,
      Pool.run es (Pool.start k articles) = Some s ->
      Pool.quiet s = true ->
      Permutation articles (Pool.completed s).
Proof.
  unfold ThreadPoolExecutor. intros Hk.
  destruct (threads self <=? 0)%Z eqn:E; [discriminate|].
  inversion Hk; subst k. apply Z.leb_gt in E. split.
  - destruct (one_by_one_completes (threads self) articles E)
      as (s & Hrun & Hq & _).
    now exists (Pool.one_by_one articles), s.
  - intros es s. apply run_completes.
Qed.

Lemma pool_conserves_tasks_witness :
  (exists es s,
      Pool.run es (Pool.start 2 Demo.three) = Some s
      /\ Pool.quiet s = true)
  /\ forall es s,
      Pool.run es (Pool.start 2 Demo.three) = Some s ->
      Pool.quiet s = true ->
      Permutation Demo.three (Pool.completed s).
Proof.
  apply (pool_conserves_tasks Demo.pair Demo.three 2). reflexivity.
Defined.

(** The three tasks of the small site run one by one. *)
Example demo_settled :
  Pool.run (Pool.one_by_one Demo.three) (Pool.start 2 Demo.three)
  = Some settled.
Proof. reflexivity. Qed.

(** ** The session *)

(** X17: the User-Agent of a scraper is never empty: it is the given one
    when that is not empty, and the default one when none is given or the
    given one is the empty string. *)
Theorem init_user_agent (base : string) (n : Z) (ua : option string) :
  user_agent (init base n ua) <> ""
  /\ (forall s, ua = Some s -> s <> "" -> user_agent (init base n ua) = s)
  /\ (ua = None \/ ua = Some "" ->
      user_agent (init base n ua) = default_user_agent).
Proof.
  unfold init, or_default. simpl. split; [|split].
  - destruct ua as [s|]; [|discriminate].
    destruct (PyStr.truthy s) eqn:T; [|discriminate].
    now apply PyStrFacts.truthy_true.
  - intros s -> Hs. apply PyStrFacts.truthy_true in Hs. now rewrite Hs.
  - intros [->| ->]; reflexivity.
Qed.

(** ** The cleanup of the body *)

Lemma startswith_app_long (p x y : string) :
  String.length p <= String.length x ->
  PyStr.startswith p (x ++ y) = PyStr.startswith p x.
Proof.
  revert x; induction p as [|c p IH]; intros x H; [reflexivity|].
  destruct x as [|d x]; simpl in *; [lia|].
  rewrite IH; [reflexivity | lia].
Qed.

(** The first occurrence of a pattern is dropped and the pass goes on
    behind it; [x] is the pattern without its last character [d]. *)
Lemma remove_first (c d : ascii) (p x a b : string) :
  String c p = (x ++ String d "")%string ->
  PyStr.contains (String c p) (a ++ x) = false ->
  PyStr.remove (String c p) (a ++ String c p ++ b)
  = (a ++ PyStr.remove (String c p) b)%string.
Proof.
  intros Hp. induction a as [|e a IH]; intros H.
  - exact (PyStrFacts.remove_hit c p b).
  - change (PyStr.contains (String c p) (String e (a ++ x)) = false) in H.
    cbn [PyStr.contains] in H. apply orb_false_iff in H as [Hs Hc].
    change (String e a ++ String c p ++ b)%string
      with (String e (a ++ String c p ++ b)).
    rewrite PyStrFacts.remove_keep.
    + now rewrite (IH Hc).
    + replace (String e (a ++ String c p ++ b))
        with (String e (a ++ x) ++ (String d "" ++ b))%string.
      * rewrite startswith_app_long; [exact Hs|].
        pose proof (f_equal String.length Hp) as L.
        rewrite string_length_app in L.
        cbn [String.length] in *. rewrite string_length_app. lia.
      * rewrite Hp. change (String e (a ++ x) ++ (String d "" ++ b))%string
          with (String e ((a ++ x) ++ (String d "" ++ b))).
        f_equal. now rewrite !PyStrFacts.app_assoc.
Qed.

(** X18: the removal of "Follow:" is one pass from left to right: where
    no occurrence begins before it, an occurrence is dropped and the pass
    goes on behind it, the text before it being kept as it is. *)
Theorem remove_follow_first (a b : string) :
  PyStr.contains "Follow:" (a ++ "Follow") = false ->
  PyStr.remove "Follow:" (a ++ "Follow:" ++ b)
  = (a ++ PyStr.remove "Follow:" b)%string.
Proof.
  intros H.
  apply (remove_first "F" ":" "ollow:" "Follow" a b); [reflexivity|].
  exact H.
Qed.

Lemma remove_follow_first_witness :
  PyStr.remove "Follow:" ("By A. " ++ "Follow:" ++ " @a Follow: @b")
  = ("By A. " ++ PyStr.remove "Follow:" " @a Follow: @b")%string.
Proof.
  apply (remove_follow_first "By A. " " @a Follow: @b"). reflexivity.
Defined.

(** X19: text that reads "Follow:" only once an occurrence inside it has
    been dropped stays in the result: the pass does not look again at
    what it has already put out. *)
Theorem remove_follow_once (a b : string) :
  PyStr.contains "Follow:" (a ++ "FolFollow") = false ->
  PyStr.remove "Follow:" (a ++ "FolFollow:low:" ++ b)
  = (a ++ "Follow:" ++ PyStr.remove "Follow:" b)%string.
Proof.
  intros H.
  replace (a ++ "FolFollow:low:" ++ b)%string
    with ((a ++ "Fol") ++ "Follow:" ++ ("low:" ++ b))%string
    by (now rewrite PyStrFacts.app_assoc).
  rewrite (remove_first "F" ":" "ollow:" "Follow"); [|reflexivity|].
  - rewrite PyStrFacts.app_assoc. reflexivity.
  - now rewrite PyStrFacts.app_assoc.
Qed.

Lemma remove_follow_once_witness :
  PyStr.remove "Follow:" ("" ++ "FolFollow:low:" ++ " @a")
  = ("" ++ "Follow:" ++ PyStr.remove "Follow:" " @a")%string.
Proof. apply (remove_follow_once "" " @a"). reflexivity. Defined.

(** The body of a page with such a paragraph still reads "Follow:". *)
Example demo_follow_stays :
  extract_content [Soup.Tag "p" [] [] [Soup.Text "FolFollow:low: @a"]]
  = "Follow: @a".
Proof. vm_compute. reflexivity. Qed.
